(** * SessionAuthAgent of the eZ Publish JavaScript REST client

    A shallow embedding of [authAgents/SessionAuthAgent] (the AMD module
    defined in [testCAPI-ContentTypeService.js], lines 307-629) and the
    properties its specification states about it.

    JavaScript values are an inductive type, objects are finite maps from
    property names to values, the storage is a finite map shared by every
    operation, and the callback style of the source is kept: every operation
    takes its callback as a continuation and runs in a monad that threads
    the storage and a trace of collaborator calls, and that can throw. *)

From Stdlib Require Import Ascii String NArith.
From stdpp Require Import base option list gmap strings fin_maps.

Local Open Scope string_scope.
Local Open Scope list_scope.

(** ** JavaScript values *)

(** The values the agent handles.  Numbers are restricted to integers: the
    agent only tests numbers for truthiness and compares one of them with
    the literal [1]. *)
#[warnings="-register-all"]
Inductive jsval : Type :=
| JUndefined
| JNull
| JBool (b : bool)
| JNum (n : Z)
| JStr (s : string)
| JObj (props : gmap string jsval).

(** ToBoolean: [undefined], [null], [false], [0] and the empty string are
    falsy, every other value (every object included) is truthy. *)
Definition truthy (v : jsval) : bool :=
  match v with
  | JUndefined | JNull => false
  | JBool b => b
  | JNum n => negb (n =? 0)%Z
  | JStr s => negb (String.eqb s EmptyString)
  | JObj _ => true
  end.

(** [v === null] *)
Definition is_null (v : jsval) : bool :=
  match v with JNull => true | _ => false end.

(** [v === 1] *)
Definition is_one (v : jsval) : bool :=
  match v with JNum 1 => true | _ => false end.

(** [undefined] and [null] have no properties: reading one throws. *)
Definition nullish (v : jsval) : bool :=
  match v with JUndefined | JNull => true | _ => false end.

(** [o[k]] on an object literal: the value of the own property, and
    [undefined] when there is none. *)
Definition js_lookup (o : gmap string jsval) (k : string) : jsval :=
  default JUndefined (o !! k).

(** [v.k] for a value that is neither [undefined] nor [null].  None of the
    property names the agent reads is defined on the prototype of a
    primitive, so a primitive answers [undefined]. *)
Definition prop_of (v : jsval) (k : string) : jsval :=
  match v with
  | JObj o => js_lookup o k
  | _ => JUndefined
  end.

(** ** Strings: [String.prototype.toUpperCase] *)

(** A string holds the UTF-8 encoding of its text: a character of ASCII is
    one byte below 128, every other character is two to four bytes from
    128 up. *)

Definition is_lower (c : ascii) : bool :=
  (97 <=? N_of_ascii c)%N && (N_of_ascii c <=? 122)%N.

Definition ascii_upper (c : ascii) : ascii :=
  if is_lower c then ascii_of_N (N_of_ascii c - 32) else c.

(** [toUpperCase] is the language's, not the repository's: it replaces
    every character by its upper case in the Unicode Character Database
    (the mappings of UnicodeData.txt and the unconditional ones of
    SpecialCasing.txt), whatever the locale.  In ASCII that is [a-z] to
    [A-Z].  The table lists every other character that has an upper case
    different from itself, as of Unicode 14.0, with that upper case, which
    may be several characters long. *)
Definition upper_case_table : list (string * string) :=
  [("µ", "Μ"); ("ß", "SS"); ("à", "À"); ("á", "Á"); ("â", "Â"); ("ã", "Ã");
   ("ä", "Ä"); ("å", "Å"); ("æ", "Æ"); ("ç", "Ç"); ("è", "È"); ("é", "É");
   ("ê", "Ê"); ("ë", "Ë"); ("ì", "Ì"); ("í", "Í"); ("î", "Î"); ("ï", "Ï");
   ("ð", "Ð"); ("ñ", "Ñ"); ("ò", "Ò"); ("ó", "Ó"); ("ô", "Ô"); ("õ", "Õ");
   ("ö", "Ö"); ("ø", "Ø"); ("ù", "Ù"); ("ú", "Ú"); ("û", "Û"); ("ü", "Ü");
   ("ý", "Ý"); ("þ", "Þ"); ("ÿ", "Ÿ"); ("ā", "Ā"); ("ă", "Ă"); ("ą", "Ą");
   ("ć", "Ć"); ("ĉ", "Ĉ"); ("ċ", "Ċ"); ("č", "Č"); ("ď", "Ď"); ("đ", "Đ");
   ("ē", "Ē"); ("ĕ", "Ĕ"); ("ė", "Ė"); ("ę", "Ę"); ("ě", "Ě"); ("ĝ", "Ĝ");
   ("ğ", "Ğ"); ("ġ", "Ġ"); ("ģ", "Ģ"); ("ĥ", "Ĥ"); ("ħ", "Ħ"); ("ĩ", "Ĩ");
   ("ī", "Ī"); ("ĭ", "Ĭ"); ("į", "Į"); ("ı", "I"); ("ĳ", "Ĳ"); ("ĵ", "Ĵ");
   ("ķ", "Ķ"); ("ĺ", "Ĺ"); ("ļ", "Ļ"); ("ľ", "Ľ"); ("ŀ", "Ŀ"); ("ł", "Ł");
   ("ń", "Ń"); ("ņ", "Ņ"); ("ň", "Ň"); ("ŉ", "ʼN"); ("ŋ", "Ŋ"); ("ō", "Ō");
   ("ŏ", "Ŏ"); ("ő", "Ő"); ("œ", "Œ"); ("ŕ", "Ŕ"); ("ŗ", "Ŗ"); ("ř", "Ř");
   ("ś", "Ś"); ("ŝ", "Ŝ"); ("ş", "Ş"); ("š", "Š"); ("ţ", "Ţ"); ("ť", "Ť");
   ("ŧ", "Ŧ"); ("ũ", "Ũ"); ("ū", "Ū"); ("ŭ", "Ŭ"); ("ů", "Ů"); ("ű", "Ű");
   ("ų", "Ų"); ("ŵ", "Ŵ"); ("ŷ", "Ŷ"); ("ź", "Ź"); ("ż", "Ż"); ("ž", "Ž");
   ("ſ", "S"); ("ƀ", "Ƀ"); ("ƃ", "Ƃ"); ("ƅ", "Ƅ"); ("ƈ", "Ƈ"); ("ƌ", "Ƌ");
   ("ƒ", "Ƒ"); ("ƕ", "Ƕ"); ("ƙ", "Ƙ"); ("ƚ", "Ƚ"); ("ƞ", "Ƞ"); ("ơ", "Ơ");
   ("ƣ", "Ƣ"); ("ƥ", "Ƥ"); ("ƨ", "Ƨ"); ("ƭ", "Ƭ"); ("ư", "Ư"); ("ƴ", "Ƴ");
   ("ƶ", "Ƶ"); ("ƹ", "Ƹ"); ("ƽ", "Ƽ"); ("ƿ", "Ƿ"); ("ǅ", "Ǆ"); ("ǆ", "Ǆ");
   ("ǈ", "Ǉ"); ("ǉ", "Ǉ"); ("ǋ", "Ǌ"); ("ǌ", "Ǌ"); ("ǎ", "Ǎ"); ("ǐ", "Ǐ");
   ("ǒ", "Ǒ"); ("ǔ", "Ǔ"); ("ǖ", "Ǖ"); ("ǘ", "Ǘ"); ("ǚ", "Ǚ"); ("ǜ", "Ǜ");
   ("ǝ", "Ǝ"); ("ǟ", "Ǟ"); ("ǡ", "Ǡ"); ("ǣ", "Ǣ"); ("ǥ", "Ǥ"); ("ǧ", "Ǧ");
   ("ǩ", "Ǩ"); ("ǫ", "Ǫ"); ("ǭ", "Ǭ"); ("ǯ", "Ǯ"); ("ǰ", "J̌"); ("ǲ", "Ǳ");
   ("ǳ", "Ǳ"); ("ǵ", "Ǵ"); ("ǹ", "Ǹ"); ("ǻ", "Ǻ"); ("ǽ", "Ǽ"); ("ǿ", "Ǿ");
   ("ȁ", "Ȁ"); ("ȃ", "Ȃ"); ("ȅ", "Ȅ"); ("ȇ", "Ȇ"); ("ȉ", "Ȉ"); ("ȋ", "Ȋ");
   ("ȍ", "Ȍ"); ("ȏ", "Ȏ"); ("ȑ", "Ȑ"); ("ȓ", "Ȓ"); ("ȕ", "Ȕ"); ("ȗ", "Ȗ");
   ("ș", "Ș"); ("ț", "Ț"); ("ȝ", "Ȝ"); ("ȟ", "Ȟ"); ("ȣ", "Ȣ"); ("ȥ", "Ȥ");
   ("ȧ", "Ȧ"); ("ȩ", "Ȩ"); ("ȫ", "Ȫ"); ("ȭ", "Ȭ"); ("ȯ", "Ȯ"); ("ȱ", "Ȱ");
   ("ȳ", "Ȳ"); ("ȼ", "Ȼ"); ("ȿ", "Ȿ"); ("ɀ", "Ɀ"); ("ɂ", "Ɂ"); ("ɇ", "Ɇ");
   ("ɉ", "Ɉ"); ("ɋ", "Ɋ"); ("ɍ", "Ɍ"); ("ɏ", "Ɏ"); ("ɐ", "Ɐ"); ("ɑ", "Ɑ");
   ("ɒ", "Ɒ"); ("ɓ", "Ɓ"); ("ɔ", "Ɔ"); ("ɖ", "Ɖ"); ("ɗ", "Ɗ"); ("ə", "Ə");
   ("ɛ", "Ɛ"); ("ɜ", "Ɜ"); ("ɠ", "Ɠ"); ("ɡ", "Ɡ"); ("ɣ", "Ɣ"); ("ɥ", "Ɥ");
   ("ɦ", "Ɦ"); ("ɨ", "Ɨ"); ("ɩ", "Ɩ"); ("ɪ", "Ɪ"); ("ɫ", "Ɫ"); ("ɬ", "Ɬ");
   ("ɯ", "Ɯ"); ("ɱ", "Ɱ"); ("ɲ", "Ɲ"); ("ɵ", "Ɵ"); ("ɽ", "Ɽ"); ("ʀ", "Ʀ");
   ("ʂ", "Ʂ"); ("ʃ", "Ʃ"); ("ʇ", "Ʇ"); ("ʈ", "Ʈ"); ("ʉ", "Ʉ"); ("ʊ", "Ʊ");
   ("ʋ", "Ʋ"); ("ʌ", "Ʌ"); ("ʒ", "Ʒ"); ("ʝ", "Ʝ"); ("ʞ", "Ʞ"); ("ͅ", "Ι");
   ("ͱ", "Ͱ"); ("ͳ", "Ͳ"); ("ͷ", "Ͷ"); ("ͻ", "Ͻ"); ("ͼ", "Ͼ"); ("ͽ", "Ͽ");
   ("ΐ", "Ϊ́"); ("ά", "Ά"); ("έ", "Έ"); ("ή", "Ή"); ("ί", "Ί");
   ("ΰ", "Ϋ́"); ("α", "Α"); ("β", "Β"); ("γ", "Γ"); ("δ", "Δ"); ("ε", "Ε");
   ("ζ", "Ζ"); ("η", "Η"); ("θ", "Θ"); ("ι", "Ι"); ("κ", "Κ"); ("λ", "Λ");
   ("μ", "Μ"); ("ν", "Ν"); ("ξ", "Ξ"); ("ο", "Ο"); ("π", "Π"); ("ρ", "Ρ");
   ("ς", "Σ"); ("σ", "Σ"); ("τ", "Τ"); ("υ", "Υ"); ("φ", "Φ"); ("χ", "Χ");
   ("ψ", "Ψ"); ("ω", "Ω"); ("ϊ", "Ϊ"); ("ϋ", "Ϋ"); ("ό", "Ό"); ("ύ", "Ύ");
   ("ώ", "Ώ"); ("ϐ", "Β"); ("ϑ", "Θ"); ("ϕ", "Φ"); ("ϖ", "Π"); ("ϗ", "Ϗ");
   ("ϙ", "Ϙ"); ("ϛ", "Ϛ"); ("ϝ", "Ϝ"); ("ϟ", "Ϟ"); ("ϡ", "Ϡ"); ("ϣ", "Ϣ");
   ("ϥ", "Ϥ"); ("ϧ", "Ϧ"); ("ϩ", "Ϩ"); ("ϫ", "Ϫ"); ("ϭ", "Ϭ"); ("ϯ", "Ϯ");
   ("ϰ", "Κ"); ("ϱ", "Ρ"); ("ϲ", "Ϲ"); ("ϳ", "Ϳ"); ("ϵ", "Ε"); ("ϸ", "Ϸ");
   ("ϻ", "Ϻ"); ("а", "А"); ("б", "Б"); ("в", "В"); ("г", "Г"); ("д", "Д");
   ("е", "Е"); ("ж", "Ж"); ("з", "З"); ("и", "И"); ("й", "Й"); ("к", "К");
   ("л", "Л"); ("м", "М"); ("н", "Н"); ("о", "О"); ("п", "П"); ("р", "Р");
   ("с", "С"); ("т", "Т"); ("у", "У"); ("ф", "Ф"); ("х", "Х"); ("ц", "Ц");
   ("ч", "Ч"); ("ш", "Ш"); ("щ", "Щ"); ("ъ", "Ъ"); ("ы", "Ы"); ("ь", "Ь");
   ("э", "Э"); ("ю", "Ю"); ("я", "Я"); ("ѐ", "Ѐ"); ("ё", "Ё"); ("ђ", "Ђ");
   ("ѓ", "Ѓ"); ("є", "Є"); ("ѕ", "Ѕ"); ("і", "І"); ("ї", "Ї"); ("ј", "Ј");
   ("љ", "Љ"); ("њ", "Њ"); ("ћ", "Ћ"); ("ќ", "Ќ"); ("ѝ", "Ѝ"); ("ў", "Ў");
   ("џ", "Џ"); ("ѡ", "Ѡ"); ("ѣ", "Ѣ"); ("ѥ", "Ѥ"); ("ѧ", "Ѧ"); ("ѩ", "Ѩ");
   ("ѫ", "Ѫ"); ("ѭ", "Ѭ"); ("ѯ", "Ѯ"); ("ѱ", "Ѱ"); ("ѳ", "Ѳ"); ("ѵ", "Ѵ");
   ("ѷ", "Ѷ"); ("ѹ", "Ѹ"); ("ѻ", "Ѻ"); ("ѽ", "Ѽ"); ("ѿ", "Ѿ"); ("ҁ", "Ҁ");
   ("ҋ", "Ҋ"); ("ҍ", "Ҍ"); ("ҏ", "Ҏ"); ("ґ", "Ґ"); ("ғ", "Ғ"); ("ҕ", "Ҕ");
   ("җ", "Җ"); ("ҙ", "Ҙ"); ("қ", "Қ"); ("ҝ", "Ҝ"); ("ҟ", "Ҟ"); ("ҡ", "Ҡ");
   ("ң", "Ң"); ("ҥ", "Ҥ"); ("ҧ", "Ҧ"); ("ҩ", "Ҩ"); ("ҫ", "Ҫ"); ("ҭ", "Ҭ");
   ("ү", "Ү"); ("ұ", "Ұ"); ("ҳ", "Ҳ"); ("ҵ", "Ҵ"); ("ҷ", "Ҷ"); ("ҹ", "Ҹ");
   ("һ", "Һ"); ("ҽ", "Ҽ"); ("ҿ", "Ҿ"); ("ӂ", "Ӂ"); ("ӄ", "Ӄ"); ("ӆ", "Ӆ");
   ("ӈ", "Ӈ"); ("ӊ", "Ӊ"); ("ӌ", "Ӌ"); ("ӎ", "Ӎ"); ("ӏ", "Ӏ"); ("ӑ", "Ӑ");
   ("ӓ", "Ӓ"); ("ӕ", "Ӕ"); ("ӗ", "Ӗ"); ("ә", "Ә"); ("ӛ", "Ӛ"); ("ӝ", "Ӝ");
   ("ӟ", "Ӟ"); ("ӡ", "Ӡ"); ("ӣ", "Ӣ"); ("ӥ", "Ӥ"); ("ӧ", "Ӧ"); ("ө", "Ө");
   ("ӫ", "Ӫ"); ("ӭ", "Ӭ"); ("ӯ", "Ӯ"); ("ӱ", "Ӱ"); ("ӳ", "Ӳ"); ("ӵ", "Ӵ");
   ("ӷ", "Ӷ"); ("ӹ", "Ӹ"); ("ӻ", "Ӻ"); ("ӽ", "Ӽ"); ("ӿ", "Ӿ"); ("ԁ", "Ԁ");
   ("ԃ", "Ԃ"); ("ԅ", "Ԅ"); ("ԇ", "Ԇ"); ("ԉ", "Ԉ"); ("ԋ", "Ԋ"); ("ԍ", "Ԍ");
   ("ԏ", "Ԏ"); ("ԑ", "Ԑ"); ("ԓ", "Ԓ"); ("ԕ", "Ԕ"); ("ԗ", "Ԗ"); ("ԙ", "Ԙ");
   ("ԛ", "Ԛ"); ("ԝ", "Ԝ"); ("ԟ", "Ԟ"); ("ԡ", "Ԡ"); ("ԣ", "Ԣ"); ("ԥ", "Ԥ");
   ("ԧ", "Ԧ"); ("ԩ", "Ԩ"); ("ԫ", "Ԫ"); ("ԭ", "Ԭ"); ("ԯ", "Ԯ"); ("ա", "Ա");
   ("բ", "Բ"); ("գ", "Գ"); ("դ", "Դ"); ("ե", "Ե"); ("զ", "Զ"); ("է", "Է");
   ("ը", "Ը"); ("թ", "Թ"); ("ժ", "Ժ"); ("ի", "Ի"); ("լ", "Լ"); ("խ", "Խ");
   ("ծ", "Ծ"); ("կ", "Կ"); ("հ", "Հ"); ("ձ", "Ձ"); ("ղ", "Ղ"); ("ճ", "Ճ");
   ("մ", "Մ"); ("յ", "Յ"); ("ն", "Ն"); ("շ", "Շ"); ("ո", "Ո"); ("չ", "Չ");
   ("պ", "Պ"); ("ջ", "Ջ"); ("ռ", "Ռ"); ("ս", "Ս"); ("վ", "Վ"); ("տ", "Տ");
   ("ր", "Ր"); ("ց", "Ց"); ("ւ", "Ւ"); ("փ", "Փ"); ("ք", "Ք"); ("օ", "Օ");
   ("ֆ", "Ֆ"); ("և", "ԵՒ"); ("ა", "Ა"); ("ბ", "Ბ"); ("გ", "Გ"); ("დ", "Დ");
   ("ე", "Ე"); ("ვ", "Ვ"); ("ზ", "Ზ"); ("თ", "Თ"); ("ი", "Ი"); ("კ", "Კ");
   ("ლ", "Ლ"); ("მ", "Მ"); ("ნ", "Ნ"); ("ო", "Ო"); ("პ", "Პ"); ("ჟ", "Ჟ");
   ("რ", "Რ"); ("ს", "Ს"); ("ტ", "Ტ"); ("უ", "Უ"); ("ფ", "Ფ"); ("ქ", "Ქ");
   ("ღ", "Ღ"); ("ყ", "Ყ"); ("შ", "Შ"); ("ჩ", "Ჩ"); ("ც", "Ც"); ("ძ", "Ძ");
   ("წ", "Წ"); ("ჭ", "Ჭ"); ("ხ", "Ხ"); ("ჯ", "Ჯ"); ("ჰ", "Ჰ"); ("ჱ", "Ჱ");
   ("ჲ", "Ჲ"); ("ჳ", "Ჳ"); ("ჴ", "Ჴ"); ("ჵ", "Ჵ"); ("ჶ", "Ჶ"); ("ჷ", "Ჷ");
   ("ჸ", "Ჸ"); ("ჹ", "Ჹ"); ("ჺ", "Ჺ"); ("ჽ", "Ჽ"); ("ჾ", "Ჾ"); ("ჿ", "Ჿ");
   ("ᏸ", "Ᏸ"); ("ᏹ", "Ᏹ"); ("ᏺ", "Ᏺ"); ("ᏻ", "Ᏻ"); ("ᏼ", "Ᏼ"); ("ᏽ", "Ᏽ");
   ("ᲀ", "В"); ("ᲁ", "Д"); ("ᲂ", "О"); ("ᲃ", "С"); ("ᲄ", "Т"); ("ᲅ", "Т");
   ("ᲆ", "Ъ"); ("ᲇ", "Ѣ"); ("ᲈ", "Ꙋ"); ("ᵹ", "Ᵹ"); ("ᵽ", "Ᵽ"); ("ᶎ", "Ᶎ");
   ("ḁ", "Ḁ"); ("ḃ", "Ḃ"); ("ḅ", "Ḅ"); ("ḇ", "Ḇ"); ("ḉ", "Ḉ"); ("ḋ", "Ḋ");
   ("ḍ", "Ḍ"); ("ḏ", "Ḏ"); ("ḑ", "Ḑ"); ("ḓ", "Ḓ"); ("ḕ", "Ḕ"); ("ḗ", "Ḗ");
   ("ḙ", "Ḙ"); ("ḛ", "Ḛ"); ("ḝ", "Ḝ"); ("ḟ", "Ḟ"); ("ḡ", "Ḡ"); ("ḣ", "Ḣ");
   ("ḥ", "Ḥ"); ("ḧ", "Ḧ"); ("ḩ", "Ḩ"); ("ḫ", "Ḫ"); ("ḭ", "Ḭ"); ("ḯ", "Ḯ");
   ("ḱ", "Ḱ"); ("ḳ", "Ḳ"); ("ḵ", "Ḵ"); ("ḷ", "Ḷ"); ("ḹ", "Ḹ"); ("ḻ", "Ḻ");
   ("ḽ", "Ḽ"); ("ḿ", "Ḿ"); ("ṁ", "Ṁ"); ("ṃ", "Ṃ"); ("ṅ", "Ṅ"); ("ṇ", "Ṇ");
   ("ṉ", "Ṉ"); ("ṋ", "Ṋ"); ("ṍ", "Ṍ"); ("ṏ", "Ṏ"); ("ṑ", "Ṑ"); ("ṓ", "Ṓ");
   ("ṕ", "Ṕ"); ("ṗ", "Ṗ"); ("ṙ", "Ṙ"); ("ṛ", "Ṛ"); ("ṝ", "Ṝ"); ("ṟ", "Ṟ");
   ("ṡ", "Ṡ"); ("ṣ", "Ṣ"); ("ṥ", "Ṥ"); ("ṧ", "Ṧ"); ("ṩ", "Ṩ"); ("ṫ", "Ṫ");
   ("ṭ", "Ṭ"); ("ṯ", "Ṯ"); ("ṱ", "Ṱ"); ("ṳ", "Ṳ"); ("ṵ", "Ṵ"); ("ṷ", "Ṷ");
   ("ṹ", "Ṹ"); ("ṻ", "Ṻ"); ("ṽ", "Ṽ"); ("ṿ", "Ṿ"); ("ẁ", "Ẁ"); ("ẃ", "Ẃ");
   ("ẅ", "Ẅ"); ("ẇ", "Ẇ"); ("ẉ", "Ẉ"); ("ẋ", "Ẋ"); ("ẍ", "Ẍ"); ("ẏ", "Ẏ");
   ("ẑ", "Ẑ"); ("ẓ", "Ẓ"); ("ẕ", "Ẕ"); ("ẖ", "H̱"); ("ẗ", "T̈");
   ("ẘ", "W̊"); ("ẙ", "Y̊"); ("ẚ", "Aʾ"); ("ẛ", "Ṡ"); ("ạ", "Ạ");
   ("ả", "Ả"); ("ấ", "Ấ"); ("ầ", "Ầ"); ("ẩ", "Ẩ"); ("ẫ", "Ẫ"); ("ậ", "Ậ");
   ("ắ", "Ắ"); ("ằ", "Ằ"); ("ẳ", "Ẳ"); ("ẵ", "Ẵ"); ("ặ", "Ặ"); ("ẹ", "Ẹ");
   ("ẻ", "Ẻ"); ("ẽ", "Ẽ"); ("ế", "Ế"); ("ề", "Ề"); ("ể", "Ể"); ("ễ", "Ễ");
   ("ệ", "Ệ"); ("ỉ", "Ỉ"); ("ị", "Ị"); ("ọ", "Ọ"); ("ỏ", "Ỏ"); ("ố", "Ố");
   ("ồ", "Ồ"); ("ổ", "Ổ"); ("ỗ", "Ỗ"); ("ộ", "Ộ"); ("ớ", "Ớ"); ("ờ", "Ờ");
   ("ở", "Ở"); ("ỡ", "Ỡ"); ("ợ", "Ợ"); ("ụ", "Ụ"); ("ủ", "Ủ"); ("ứ", "Ứ");
   ("ừ", "Ừ"); ("ử", "Ử"); ("ữ", "Ữ"); ("ự", "Ự"); ("ỳ", "Ỳ"); ("ỵ", "Ỵ");
   ("ỷ", "Ỷ"); ("ỹ", "Ỹ"); ("ỻ", "Ỻ"); ("ỽ", "Ỽ"); ("ỿ", "Ỿ"); ("ἀ", "Ἀ");
   ("ἁ", "Ἁ"); ("ἂ", "Ἂ"); ("ἃ", "Ἃ"); ("ἄ", "Ἄ"); ("ἅ", "Ἅ"); ("ἆ", "Ἆ");
   ("ἇ", "Ἇ"); ("ἐ", "Ἐ"); ("ἑ", "Ἑ"); ("ἒ", "Ἒ"); ("ἓ", "Ἓ"); ("ἔ", "Ἔ");
   ("ἕ", "Ἕ"); ("ἠ", "Ἠ"); ("ἡ", "Ἡ"); ("ἢ", "Ἢ"); ("ἣ", "Ἣ"); ("ἤ", "Ἤ");
   ("ἥ", "Ἥ"); ("ἦ", "Ἦ"); ("ἧ", "Ἧ"); ("ἰ", "Ἰ"); ("ἱ", "Ἱ"); ("ἲ", "Ἲ");
   ("ἳ", "Ἳ"); ("ἴ", "Ἴ"); ("ἵ", "Ἵ"); ("ἶ", "Ἶ"); ("ἷ", "Ἷ"); ("ὀ", "Ὀ");
   ("ὁ", "Ὁ"); ("ὂ", "Ὂ"); ("ὃ", "Ὃ"); ("ὄ", "Ὄ"); ("ὅ", "Ὅ"); ("ὐ", "Υ̓");
   ("ὑ", "Ὑ"); ("ὒ", "Υ̓̀"); ("ὓ", "Ὓ"); ("ὔ", "Υ̓́"); ("ὕ", "Ὕ");
   ("ὖ", "Υ̓͂"); ("ὗ", "Ὗ"); ("ὠ", "Ὠ"); ("ὡ", "Ὡ"); ("ὢ", "Ὢ"); ("ὣ", "Ὣ");
   ("ὤ", "Ὤ"); ("ὥ", "Ὥ"); ("ὦ", "Ὦ"); ("ὧ", "Ὧ"); ("ὰ", "Ὰ"); ("ά", "Ά");
   ("ὲ", "Ὲ"); ("έ", "Έ"); ("ὴ", "Ὴ"); ("ή", "Ή"); ("ὶ", "Ὶ"); ("ί", "Ί");
   ("ὸ", "Ὸ"); ("ό", "Ό"); ("ὺ", "Ὺ"); ("ύ", "Ύ"); ("ὼ", "Ὼ"); ("ώ", "Ώ");
   ("ᾀ", "ἈΙ"); ("ᾁ", "ἉΙ"); ("ᾂ", "ἊΙ"); ("ᾃ", "ἋΙ"); ("ᾄ", "ἌΙ");
   ("ᾅ", "ἍΙ"); ("ᾆ", "ἎΙ"); ("ᾇ", "ἏΙ"); ("ᾈ", "ἈΙ"); ("ᾉ", "ἉΙ");
   ("ᾊ", "ἊΙ"); ("ᾋ", "ἋΙ"); ("ᾌ", "ἌΙ"); ("ᾍ", "ἍΙ"); ("ᾎ", "ἎΙ");
   ("ᾏ", "ἏΙ"); ("ᾐ", "ἨΙ"); ("ᾑ", "ἩΙ"); ("ᾒ", "ἪΙ"); ("ᾓ", "ἫΙ");
   ("ᾔ", "ἬΙ"); ("ᾕ", "ἭΙ"); ("ᾖ", "ἮΙ"); ("ᾗ", "ἯΙ"); ("ᾘ", "ἨΙ");
   ("ᾙ", "ἩΙ"); ("ᾚ", "ἪΙ"); ("ᾛ", "ἫΙ"); ("ᾜ", "ἬΙ"); ("ᾝ", "ἭΙ");
   ("ᾞ", "ἮΙ"); ("ᾟ", "ἯΙ"); ("ᾠ", "ὨΙ"); ("ᾡ", "ὩΙ"); ("ᾢ", "ὪΙ");
   ("ᾣ", "ὫΙ"); ("ᾤ", "ὬΙ"); ("ᾥ", "ὭΙ"); ("ᾦ", "ὮΙ"); ("ᾧ", "ὯΙ");
   ("ᾨ", "ὨΙ"); ("ᾩ", "ὩΙ"); ("ᾪ", "ὪΙ"); ("ᾫ", "ὫΙ"); ("ᾬ", "ὬΙ");
   ("ᾭ", "ὭΙ"); ("ᾮ", "ὮΙ"); ("ᾯ", "ὯΙ"); ("ᾰ", "Ᾰ"); ("ᾱ", "Ᾱ");
   ("ᾲ", "ᾺΙ"); ("ᾳ", "ΑΙ"); ("ᾴ", "ΆΙ"); ("ᾶ", "Α͂"); ("ᾷ", "Α͂Ι");
   ("ᾼ", "ΑΙ"); ("ι", "Ι"); ("ῂ", "ῊΙ"); ("ῃ", "ΗΙ"); ("ῄ", "ΉΙ");
   ("ῆ", "Η͂"); ("ῇ", "Η͂Ι"); ("ῌ", "ΗΙ"); ("ῐ", "Ῐ"); ("ῑ", "Ῑ");
   ("ῒ", "Ϊ̀"); ("ΐ", "Ϊ́"); ("ῖ", "Ι͂"); ("ῗ", "Ϊ͂"); ("ῠ", "Ῠ");
   ("ῡ", "Ῡ"); ("ῢ", "Ϋ̀"); ("ΰ", "Ϋ́"); ("ῤ", "Ρ̓"); ("ῥ", "Ῥ");
   ("ῦ", "Υ͂"); ("ῧ", "Ϋ͂"); ("ῲ", "ῺΙ"); ("ῳ", "ΩΙ"); ("ῴ", "ΏΙ");
   ("ῶ", "Ω͂"); ("ῷ", "Ω͂Ι"); ("ῼ", "ΩΙ"); ("ⅎ", "Ⅎ"); ("ⅰ", "Ⅰ");
   ("ⅱ", "Ⅱ"); ("ⅲ", "Ⅲ"); ("ⅳ", "Ⅳ"); ("ⅴ", "Ⅴ"); ("ⅵ", "Ⅵ"); ("ⅶ", "Ⅶ");
   ("ⅷ", "Ⅷ"); ("ⅸ", "Ⅸ"); ("ⅹ", "Ⅹ"); ("ⅺ", "Ⅺ"); ("ⅻ", "Ⅻ"); ("ⅼ", "Ⅼ");
   ("ⅽ", "Ⅽ"); ("ⅾ", "Ⅾ"); ("ⅿ", "Ⅿ"); ("ↄ", "Ↄ"); ("ⓐ", "Ⓐ"); ("ⓑ", "Ⓑ");
   ("ⓒ", "Ⓒ"); ("ⓓ", "Ⓓ"); ("ⓔ", "Ⓔ"); ("ⓕ", "Ⓕ"); ("ⓖ", "Ⓖ"); ("ⓗ", "Ⓗ");
   ("ⓘ", "Ⓘ"); ("ⓙ", "Ⓙ"); ("ⓚ", "Ⓚ"); ("ⓛ", "Ⓛ"); ("ⓜ", "Ⓜ"); ("ⓝ", "Ⓝ");
   ("ⓞ", "Ⓞ"); ("ⓟ", "Ⓟ"); ("ⓠ", "Ⓠ"); ("ⓡ", "Ⓡ"); ("ⓢ", "Ⓢ"); ("ⓣ", "Ⓣ");
   ("ⓤ", "Ⓤ"); ("ⓥ", "Ⓥ"); ("ⓦ", "Ⓦ"); ("ⓧ", "Ⓧ"); ("ⓨ", "Ⓨ"); ("ⓩ", "Ⓩ");
   ("ⰰ", "Ⰰ"); ("ⰱ", "Ⰱ"); ("ⰲ", "Ⰲ"); ("ⰳ", "Ⰳ"); ("ⰴ", "Ⰴ"); ("ⰵ", "Ⰵ");
   ("ⰶ", "Ⰶ"); ("ⰷ", "Ⰷ"); ("ⰸ", "Ⰸ"); ("ⰹ", "Ⰹ"); ("ⰺ", "Ⰺ"); ("ⰻ", "Ⰻ");
   ("ⰼ", "Ⰼ"); ("ⰽ", "Ⰽ"); ("ⰾ", "Ⰾ"); ("ⰿ", "Ⰿ"); ("ⱀ", "Ⱀ"); ("ⱁ", "Ⱁ");
   ("ⱂ", "Ⱂ"); ("ⱃ", "Ⱃ"); ("ⱄ", "Ⱄ"); ("ⱅ", "Ⱅ"); ("ⱆ", "Ⱆ"); ("ⱇ", "Ⱇ");
   ("ⱈ", "Ⱈ"); ("ⱉ", "Ⱉ"); ("ⱊ", "Ⱊ"); ("ⱋ", "Ⱋ"); ("ⱌ", "Ⱌ"); ("ⱍ", "Ⱍ");
   ("ⱎ", "Ⱎ"); ("ⱏ", "Ⱏ"); ("ⱐ", "Ⱐ"); ("ⱑ", "Ⱑ"); ("ⱒ", "Ⱒ"); ("ⱓ", "Ⱓ");
   ("ⱔ", "Ⱔ"); ("ⱕ", "Ⱕ"); ("ⱖ", "Ⱖ"); ("ⱗ", "Ⱗ"); ("ⱘ", "Ⱘ"); ("ⱙ", "Ⱙ");
   ("ⱚ", "Ⱚ"); ("ⱛ", "Ⱛ"); ("ⱜ", "Ⱜ"); ("ⱝ", "Ⱝ"); ("ⱞ", "Ⱞ"); ("ⱟ", "Ⱟ");
   ("ⱡ", "Ⱡ"); ("ⱥ", "Ⱥ"); ("ⱦ", "Ⱦ"); ("ⱨ", "Ⱨ"); ("ⱪ", "Ⱪ"); ("ⱬ", "Ⱬ");
   ("ⱳ", "Ⱳ"); ("ⱶ", "Ⱶ"); ("ⲁ", "Ⲁ"); ("ⲃ", "Ⲃ"); ("ⲅ", "Ⲅ"); ("ⲇ", "Ⲇ");
   ("ⲉ", "Ⲉ"); ("ⲋ", "Ⲋ"); ("ⲍ", "Ⲍ"); ("ⲏ", "Ⲏ"); ("ⲑ", "Ⲑ"); ("ⲓ", "Ⲓ");
   ("ⲕ", "Ⲕ"); ("ⲗ", "Ⲗ"); ("ⲙ", "Ⲙ"); ("ⲛ", "Ⲛ"); ("ⲝ", "Ⲝ"); ("ⲟ", "Ⲟ");
   ("ⲡ", "Ⲡ"); ("ⲣ", "Ⲣ"); ("ⲥ", "Ⲥ"); ("ⲧ", "Ⲧ"); ("ⲩ", "Ⲩ"); ("ⲫ", "Ⲫ");
   ("ⲭ", "Ⲭ"); ("ⲯ", "Ⲯ"); ("ⲱ", "Ⲱ"); ("ⲳ", "Ⲳ"); ("ⲵ", "Ⲵ"); ("ⲷ", "Ⲷ");
   ("ⲹ", "Ⲹ"); ("ⲻ", "Ⲻ"); ("ⲽ", "Ⲽ"); ("ⲿ", "Ⲿ"); ("ⳁ", "Ⳁ"); ("ⳃ", "Ⳃ");
   ("ⳅ", "Ⳅ"); ("ⳇ", "Ⳇ"); ("ⳉ", "Ⳉ"); ("ⳋ", "Ⳋ"); ("ⳍ", "Ⳍ"); ("ⳏ", "Ⳏ");
   ("ⳑ", "Ⳑ"); ("ⳓ", "Ⳓ"); ("ⳕ", "Ⳕ"); ("ⳗ", "Ⳗ"); ("ⳙ", "Ⳙ"); ("ⳛ", "Ⳛ");
   ("ⳝ", "Ⳝ"); ("ⳟ", "Ⳟ"); ("ⳡ", "Ⳡ"); ("ⳣ", "Ⳣ"); ("ⳬ", "Ⳬ"); ("ⳮ", "Ⳮ");
   ("ⳳ", "Ⳳ"); ("ⴀ", "Ⴀ"); ("ⴁ", "Ⴁ"); ("ⴂ", "Ⴂ"); ("ⴃ", "Ⴃ"); ("ⴄ", "Ⴄ");
   ("ⴅ", "Ⴅ"); ("ⴆ", "Ⴆ"); ("ⴇ", "Ⴇ"); ("ⴈ", "Ⴈ"); ("ⴉ", "Ⴉ"); ("ⴊ", "Ⴊ");
   ("ⴋ", "Ⴋ"); ("ⴌ", "Ⴌ"); ("ⴍ", "Ⴍ"); ("ⴎ", "Ⴎ"); ("ⴏ", "Ⴏ"); ("ⴐ", "Ⴐ");
   ("ⴑ", "Ⴑ"); ("ⴒ", "Ⴒ"); ("ⴓ", "Ⴓ"); ("ⴔ", "Ⴔ"); ("ⴕ", "Ⴕ"); ("ⴖ", "Ⴖ");
   ("ⴗ", "Ⴗ"); ("ⴘ", "Ⴘ"); ("ⴙ", "Ⴙ"); ("ⴚ", "Ⴚ"); ("ⴛ", "Ⴛ"); ("ⴜ", "Ⴜ");
   ("ⴝ", "Ⴝ"); ("ⴞ", "Ⴞ"); ("ⴟ", "Ⴟ"); ("ⴠ", "Ⴠ"); ("ⴡ", "Ⴡ"); ("ⴢ", "Ⴢ");
   ("ⴣ", "Ⴣ"); ("ⴤ", "Ⴤ"); ("ⴥ", "Ⴥ"); ("ⴧ", "Ⴧ"); ("ⴭ", "Ⴭ"); ("ꙁ", "Ꙁ");
   ("ꙃ", "Ꙃ"); ("ꙅ", "Ꙅ"); ("ꙇ", "Ꙇ"); ("ꙉ", "Ꙉ"); ("ꙋ", "Ꙋ"); ("ꙍ", "Ꙍ");
   ("ꙏ", "Ꙏ"); ("ꙑ", "Ꙑ"); ("ꙓ", "Ꙓ"); ("ꙕ", "Ꙕ"); ("ꙗ", "Ꙗ"); ("ꙙ", "Ꙙ");
   ("ꙛ", "Ꙛ"); ("ꙝ", "Ꙝ"); ("ꙟ", "Ꙟ"); ("ꙡ", "Ꙡ"); ("ꙣ", "Ꙣ"); ("ꙥ", "Ꙥ");
   ("ꙧ", "Ꙧ"); ("ꙩ", "Ꙩ"); ("ꙫ", "Ꙫ"); ("ꙭ", "Ꙭ"); ("ꚁ", "Ꚁ"); ("ꚃ", "Ꚃ");
   ("ꚅ", "Ꚅ"); ("ꚇ", "Ꚇ"); ("ꚉ", "Ꚉ"); ("ꚋ", "Ꚋ"); ("ꚍ", "Ꚍ"); ("ꚏ", "Ꚏ");
   ("ꚑ", "Ꚑ"); ("ꚓ", "Ꚓ"); ("ꚕ", "Ꚕ"); ("ꚗ", "Ꚗ"); ("ꚙ", "Ꚙ"); ("ꚛ", "Ꚛ");
   ("ꜣ", "Ꜣ"); ("ꜥ", "Ꜥ"); ("ꜧ", "Ꜧ"); ("ꜩ", "Ꜩ"); ("ꜫ", "Ꜫ"); ("ꜭ", "Ꜭ");
   ("ꜯ", "Ꜯ"); ("ꜳ", "Ꜳ"); ("ꜵ", "Ꜵ"); ("ꜷ", "Ꜷ"); ("ꜹ", "Ꜹ"); ("ꜻ", "Ꜻ");
   ("ꜽ", "Ꜽ"); ("ꜿ", "Ꜿ"); ("ꝁ", "Ꝁ"); ("ꝃ", "Ꝃ"); ("ꝅ", "Ꝅ"); ("ꝇ", "Ꝇ");
   ("ꝉ", "Ꝉ"); ("ꝋ", "Ꝋ"); ("ꝍ", "Ꝍ"); ("ꝏ", "Ꝏ"); ("ꝑ", "Ꝑ"); ("ꝓ", "Ꝓ");
   ("ꝕ", "Ꝕ"); ("ꝗ", "Ꝗ"); ("ꝙ", "Ꝙ"); ("ꝛ", "Ꝛ"); ("ꝝ", "Ꝝ"); ("ꝟ", "Ꝟ");
   ("ꝡ", "Ꝡ"); ("ꝣ", "Ꝣ"); ("ꝥ", "Ꝥ"); ("ꝧ", "Ꝧ"); ("ꝩ", "Ꝩ"); ("ꝫ", "Ꝫ");
   ("ꝭ", "Ꝭ"); ("ꝯ", "Ꝯ"); ("ꝺ", "Ꝺ"); ("ꝼ", "Ꝼ"); ("ꝿ", "Ꝿ"); ("ꞁ", "Ꞁ");
   ("ꞃ", "Ꞃ"); ("ꞅ", "Ꞅ"); ("ꞇ", "Ꞇ"); ("ꞌ", "Ꞌ"); ("ꞑ", "Ꞑ"); ("ꞓ", "Ꞓ");
   ("ꞔ", "Ꞔ"); ("ꞗ", "Ꞗ"); ("ꞙ", "Ꞙ"); ("ꞛ", "Ꞛ"); ("ꞝ", "Ꞝ"); ("ꞟ", "Ꞟ");
   ("ꞡ", "Ꞡ"); ("ꞣ", "Ꞣ"); ("ꞥ", "Ꞥ"); ("ꞧ", "Ꞧ"); ("ꞩ", "Ꞩ"); ("ꞵ", "Ꞵ");
   ("ꞷ", "Ꞷ"); ("ꞹ", "Ꞹ"); ("ꞻ", "Ꞻ"); ("ꞽ", "Ꞽ"); ("ꞿ", "Ꞿ"); ("ꟁ", "Ꟁ");
   ("ꟃ", "Ꟃ"); ("ꟈ", "Ꟈ"); ("ꟊ", "Ꟊ"); ("ꟑ", "Ꟑ"); ("ꟗ", "Ꟗ"); ("ꟙ", "Ꟙ");
   ("ꟶ", "Ꟶ"); ("ꭓ", "Ꭓ"); ("ꭰ", "Ꭰ"); ("ꭱ", "Ꭱ"); ("ꭲ", "Ꭲ"); ("ꭳ", "Ꭳ");
   ("ꭴ", "Ꭴ"); ("ꭵ", "Ꭵ"); ("ꭶ", "Ꭶ"); ("ꭷ", "Ꭷ"); ("ꭸ", "Ꭸ"); ("ꭹ", "Ꭹ");
   ("ꭺ", "Ꭺ"); ("ꭻ", "Ꭻ"); ("ꭼ", "Ꭼ"); ("ꭽ", "Ꭽ"); ("ꭾ", "Ꭾ"); ("ꭿ", "Ꭿ");
   ("ꮀ", "Ꮀ"); ("ꮁ", "Ꮁ"); ("ꮂ", "Ꮂ"); ("ꮃ", "Ꮃ"); ("ꮄ", "Ꮄ"); ("ꮅ", "Ꮅ");
   ("ꮆ", "Ꮆ"); ("ꮇ", "Ꮇ"); ("ꮈ", "Ꮈ"); ("ꮉ", "Ꮉ"); ("ꮊ", "Ꮊ"); ("ꮋ", "Ꮋ");
   ("ꮌ", "Ꮌ"); ("ꮍ", "Ꮍ"); ("ꮎ", "Ꮎ"); ("ꮏ", "Ꮏ"); ("ꮐ", "Ꮐ"); ("ꮑ", "Ꮑ");
   ("ꮒ", "Ꮒ"); ("ꮓ", "Ꮓ"); ("ꮔ", "Ꮔ"); ("ꮕ", "Ꮕ"); ("ꮖ", "Ꮖ"); ("ꮗ", "Ꮗ");
   ("ꮘ", "Ꮘ"); ("ꮙ", "Ꮙ"); ("ꮚ", "Ꮚ"); ("ꮛ", "Ꮛ"); ("ꮜ", "Ꮜ"); ("ꮝ", "Ꮝ");
   ("ꮞ", "Ꮞ"); ("ꮟ", "Ꮟ"); ("ꮠ", "Ꮠ"); ("ꮡ", "Ꮡ"); ("ꮢ", "Ꮢ"); ("ꮣ", "Ꮣ");
   ("ꮤ", "Ꮤ"); ("ꮥ", "Ꮥ"); ("ꮦ", "Ꮦ"); ("ꮧ", "Ꮧ"); ("ꮨ", "Ꮨ"); ("ꮩ", "Ꮩ");
   ("ꮪ", "Ꮪ"); ("ꮫ", "Ꮫ"); ("ꮬ", "Ꮬ"); ("ꮭ", "Ꮭ"); ("ꮮ", "Ꮮ"); ("ꮯ", "Ꮯ");
   ("ꮰ", "Ꮰ"); ("ꮱ", "Ꮱ"); ("ꮲ", "Ꮲ"); ("ꮳ", "Ꮳ"); ("ꮴ", "Ꮴ"); ("ꮵ", "Ꮵ");
   ("ꮶ", "Ꮶ"); ("ꮷ", "Ꮷ"); ("ꮸ", "Ꮸ"); ("ꮹ", "Ꮹ"); ("ꮺ", "Ꮺ"); ("ꮻ", "Ꮻ");
   ("ꮼ", "Ꮼ"); ("ꮽ", "Ꮽ"); ("ꮾ", "Ꮾ"); ("ꮿ", "Ꮿ"); ("ﬀ", "FF"); ("ﬁ", "FI");
   ("ﬂ", "FL"); ("ﬃ", "FFI"); ("ﬄ", "FFL"); ("ﬅ", "ST"); ("ﬆ", "ST");
   ("ﬓ", "ՄՆ"); ("ﬔ", "ՄԵ"); ("ﬕ", "ՄԻ"); ("ﬖ", "ՎՆ"); ("ﬗ", "ՄԽ");
   ("ａ", "Ａ"); ("ｂ", "Ｂ"); ("ｃ", "Ｃ"); ("ｄ", "Ｄ"); ("ｅ", "Ｅ"); ("ｆ", "Ｆ");
   ("ｇ", "Ｇ"); ("ｈ", "Ｈ"); ("ｉ", "Ｉ"); ("ｊ", "Ｊ"); ("ｋ", "Ｋ"); ("ｌ", "Ｌ");
   ("ｍ", "Ｍ"); ("ｎ", "Ｎ"); ("ｏ", "Ｏ"); ("ｐ", "Ｐ"); ("ｑ", "Ｑ"); ("ｒ", "Ｒ");
   ("ｓ", "Ｓ"); ("ｔ", "Ｔ"); ("ｕ", "Ｕ"); ("ｖ", "Ｖ"); ("ｗ", "Ｗ"); ("ｘ", "Ｘ");
   ("ｙ", "Ｙ"); ("ｚ", "Ｚ"); ("𐐨", "𐐀"); ("𐐩", "𐐁"); ("𐐪", "𐐂"); ("𐐫", "𐐃");
   ("𐐬", "𐐄"); ("𐐭", "𐐅"); ("𐐮", "𐐆"); ("𐐯", "𐐇"); ("𐐰", "𐐈"); ("𐐱", "𐐉");
   ("𐐲", "𐐊"); ("𐐳", "𐐋"); ("𐐴", "𐐌"); ("𐐵", "𐐍"); ("𐐶", "𐐎"); ("𐐷", "𐐏");
   ("𐐸", "𐐐"); ("𐐹", "𐐑"); ("𐐺", "𐐒"); ("𐐻", "𐐓"); ("𐐼", "𐐔"); ("𐐽", "𐐕");
   ("𐐾", "𐐖"); ("𐐿", "𐐗"); ("𐑀", "𐐘"); ("𐑁", "𐐙"); ("𐑂", "𐐚"); ("𐑃", "𐐛");
   ("𐑄", "𐐜"); ("𐑅", "𐐝"); ("𐑆", "𐐞"); ("𐑇", "𐐟"); ("𐑈", "𐐠"); ("𐑉", "𐐡");
   ("𐑊", "𐐢"); ("𐑋", "𐐣"); ("𐑌", "𐐤"); ("𐑍", "𐐥"); ("𐑎", "𐐦"); ("𐑏", "𐐧");
   ("𐓘", "𐒰"); ("𐓙", "𐒱"); ("𐓚", "𐒲"); ("𐓛", "𐒳"); ("𐓜", "𐒴"); ("𐓝", "𐒵");
   ("𐓞", "𐒶"); ("𐓟", "𐒷"); ("𐓠", "𐒸"); ("𐓡", "𐒹"); ("𐓢", "𐒺"); ("𐓣", "𐒻");
   ("𐓤", "𐒼"); ("𐓥", "𐒽"); ("𐓦", "𐒾"); ("𐓧", "𐒿"); ("𐓨", "𐓀"); ("𐓩", "𐓁");
   ("𐓪", "𐓂"); ("𐓫", "𐓃"); ("𐓬", "𐓄"); ("𐓭", "𐓅"); ("𐓮", "𐓆"); ("𐓯", "𐓇");
   ("𐓰", "𐓈"); ("𐓱", "𐓉"); ("𐓲", "𐓊"); ("𐓳", "𐓋"); ("𐓴", "𐓌"); ("𐓵", "𐓍");
   ("𐓶", "𐓎"); ("𐓷", "𐓏"); ("𐓸", "𐓐"); ("𐓹", "𐓑"); ("𐓺", "𐓒"); ("𐓻", "𐓓");
   ("𐖗", "𐕰"); ("𐖘", "𐕱"); ("𐖙", "𐕲"); ("𐖚", "𐕳"); ("𐖛", "𐕴"); ("𐖜", "𐕵");
   ("𐖝", "𐕶"); ("𐖞", "𐕷"); ("𐖟", "𐕸"); ("𐖠", "𐕹"); ("𐖡", "𐕺"); ("𐖣", "𐕼");
   ("𐖤", "𐕽"); ("𐖥", "𐕾"); ("𐖦", "𐕿"); ("𐖧", "𐖀"); ("𐖨", "𐖁"); ("𐖩", "𐖂");
   ("𐖪", "𐖃"); ("𐖫", "𐖄"); ("𐖬", "𐖅"); ("𐖭", "𐖆"); ("𐖮", "𐖇"); ("𐖯", "𐖈");
   ("𐖰", "𐖉"); ("𐖱", "𐖊"); ("𐖳", "𐖌"); ("𐖴", "𐖍"); ("𐖵", "𐖎"); ("𐖶", "𐖏");
   ("𐖷", "𐖐"); ("𐖸", "𐖑"); ("𐖹", "𐖒"); ("𐖻", "𐖔"); ("𐖼", "𐖕"); ("𐳀", "𐲀");
   ("𐳁", "𐲁"); ("𐳂", "𐲂"); ("𐳃", "𐲃"); ("𐳄", "𐲄"); ("𐳅", "𐲅"); ("𐳆", "𐲆");
   ("𐳇", "𐲇"); ("𐳈", "𐲈"); ("𐳉", "𐲉"); ("𐳊", "𐲊"); ("𐳋", "𐲋"); ("𐳌", "𐲌");
   ("𐳍", "𐲍"); ("𐳎", "𐲎"); ("𐳏", "𐲏"); ("𐳐", "𐲐"); ("𐳑", "𐲑"); ("𐳒", "𐲒");
   ("𐳓", "𐲓"); ("𐳔", "𐲔"); ("𐳕", "𐲕"); ("𐳖", "𐲖"); ("𐳗", "𐲗"); ("𐳘", "𐲘");
   ("𐳙", "𐲙"); ("𐳚", "𐲚"); ("𐳛", "𐲛"); ("𐳜", "𐲜"); ("𐳝", "𐲝"); ("𐳞", "𐲞");
   ("𐳟", "𐲟"); ("𐳠", "𐲠"); ("𐳡", "𐲡"); ("𐳢", "𐲢"); ("𐳣", "𐲣"); ("𐳤", "𐲤");
   ("𐳥", "𐲥"); ("𐳦", "𐲦"); ("𐳧", "𐲧"); ("𐳨", "𐲨"); ("𐳩", "𐲩"); ("𐳪", "𐲪");
   ("𐳫", "𐲫"); ("𐳬", "𐲬"); ("𐳭", "𐲭"); ("𐳮", "𐲮"); ("𐳯", "𐲯"); ("𐳰", "𐲰");
   ("𐳱", "𐲱"); ("𐳲", "𐲲"); ("𑣀", "𑢠"); ("𑣁", "𑢡"); ("𑣂", "𑢢"); ("𑣃", "𑢣");
   ("𑣄", "𑢤"); ("𑣅", "𑢥"); ("𑣆", "𑢦"); ("𑣇", "𑢧"); ("𑣈", "𑢨"); ("𑣉", "𑢩");
   ("𑣊", "𑢪"); ("𑣋", "𑢫"); ("𑣌", "𑢬"); ("𑣍", "𑢭"); ("𑣎", "𑢮"); ("𑣏", "𑢯");
   ("𑣐", "𑢰"); ("𑣑", "𑢱"); ("𑣒", "𑢲"); ("𑣓", "𑢳"); ("𑣔", "𑢴"); ("𑣕", "𑢵");
   ("𑣖", "𑢶"); ("𑣗", "𑢷"); ("𑣘", "𑢸"); ("𑣙", "𑢹"); ("𑣚", "𑢺"); ("𑣛", "𑢻");
   ("𑣜", "𑢼"); ("𑣝", "𑢽"); ("𑣞", "𑢾"); ("𑣟", "𑢿"); ("𖹠", "𖹀"); ("𖹡", "𖹁");
   ("𖹢", "𖹂"); ("𖹣", "𖹃"); ("𖹤", "𖹄"); ("𖹥", "𖹅"); ("𖹦", "𖹆"); ("𖹧", "𖹇");
   ("𖹨", "𖹈"); ("𖹩", "𖹉"); ("𖹪", "𖹊"); ("𖹫", "𖹋"); ("𖹬", "𖹌"); ("𖹭", "𖹍");
   ("𖹮", "𖹎"); ("𖹯", "𖹏"); ("𖹰", "𖹐"); ("𖹱", "𖹑"); ("𖹲", "𖹒"); ("𖹳", "𖹓");
   ("𖹴", "𖹔"); ("𖹵", "𖹕"); ("𖹶", "𖹖"); ("𖹷", "𖹗"); ("𖹸", "𖹘"); ("𖹹", "𖹙");
   ("𖹺", "𖹚"); ("𖹻", "𖹛"); ("𖹼", "𖹜"); ("𖹽", "𖹝"); ("𖹾", "𖹞"); ("𖹿", "𖹟");
   ("𞤢", "𞤀"); ("𞤣", "𞤁"); ("𞤤", "𞤂"); ("𞤥", "𞤃"); ("𞤦", "𞤄"); ("𞤧", "𞤅");
   ("𞤨", "𞤆"); ("𞤩", "𞤇"); ("𞤪", "𞤈"); ("𞤫", "𞤉"); ("𞤬", "𞤊"); ("𞤭", "𞤋");
   ("𞤮", "𞤌"); ("𞤯", "𞤍"); ("𞤰", "𞤎"); ("𞤱", "𞤏"); ("𞤲", "𞤐"); ("𞤳", "𞤑");
   ("𞤴", "𞤒"); ("𞤵", "𞤓"); ("𞤶", "𞤔"); ("𞤷", "𞤕"); ("𞤸", "𞤖"); ("𞤹", "𞤗");
   ("𞤺", "𞤘"); ("𞤻", "𞤙"); ("𞤼", "𞤚"); ("𞤽", "𞤛"); ("𞤾", "𞤜"); ("𞤿", "𞤝");
   ("𞥀", "𞤞"); ("𞥁", "𞤟"); ("𞥂", "𞤠"); ("𞥃", "𞤡")].

(** The entry of the table for the character a string begins with. *)
Fixpoint upper_case_of (table : list (string * string)) (s : string)
  : option (string * string) :=
  match table with
  | [] => None
  | (lower, upper) :: rest =>
      if String.prefix lower s then Some (lower, upper)
      else upper_case_of rest s
  end.

(** Upper case from the left, [skip] counting the bytes still to pass of a
    character already replaced.  A byte from 128 up that begins no
    character of the table is kept. *)
Fixpoint upper_from (skip : nat) (s : string) : string :=
  match s with
  | EmptyString => EmptyString
  | String c s' =>
      match skip with
      | S k => upper_from k s'
      | O =>
          if (N_of_ascii c <? 128)%N then
            String (ascii_upper c) (upper_from 0 s')
          else
            match upper_case_of upper_case_table s with
            | Some (lower, upper) =>
                String.append upper
                  (upper_from (String.length lower - 1) s')
            | None => String c (upper_from 0 s')
            end
      end
  end.

Definition toUpperCase (s : string) : string := upper_from 0 s.

(** ** Requests *)

(** Modelled from the spec: the [Request] structure is declared outside
    the sources at hand; section 6 gives it a [method] field holding an HTTP
    verb and a mutable [headers] mapping. *)
Record Request : Type := mkRequest {
  method : string;
  headers : gmap string jsval
}.

(** [request.headers[name] = value] *)
Definition set_header (request : Request) (name : string) (value : jsval)
  : Request :=
  {| method := method request;
     headers := <[name := value]> (headers request) |}.

(** ** The user service collaborator *)

(** Modelled from the spec: the user service ([services/UserService]) is
    declared outside the sources at hand; section 6 gives its four
    operations.  [newSessionCreateStruct] returns the create structure.
    Each of the other three answers through the callback it is given: the
    list holds the [(error, result)] pairs the service passes to that
    callback, in order.  A service that honours its contract answers with
    exactly one pair; one that never answers has the empty list. *)
Record UserService : Type := mkUserService {
  newSessionCreateStruct : jsval -> jsval -> jsval;
  createSession : jsval -> list (jsval * jsval);
  refreshSession : jsval -> list (jsval * jsval);
  deleteSession : jsval -> list (jsval * jsval)
}.

(** ** The world: storage and trace *)

Inductive Event : Type :=
| EvGetUserService
| EvNewSessionCreateStruct (login password : jsval)
| EvCreateSession (sessionCreateStruct : jsval)
| EvRefreshSession (sessionId : jsval)
| EvDeleteSession (sessionHref : jsval)
| EvDone (error result : jsval)
| EvRequestDone (error : jsval) (request : Request).

(** Modelled from the spec: the storage ([storages/LocalStorage] and its
    abstraction) is declared outside the sources at hand; section 4.1 makes
    it a key/value store whose [getItem] returns the stored value, or
    [null] for a key never set or removed. *)
Record World : Type := mkWorld {
  storage : gmap string jsval;
  trace : list Event
}.

Inductive Exn : Type :=
| CAPIError (message : string)
| TypeError.

Inductive outcome (A : Type) : Type :=
| Returned (a : A) (w : World)
| Thrown (e : Exn) (w : World).
Arguments Returned {A} a w.
Arguments Thrown {A} e w.

Definition M (A : Type) : Type := World -> outcome A.

#[global] Instance M_ret : MRet M := fun A a w => Returned a w.

#[global] Instance M_bind : MBind M := fun A B f m w =>
  match m w with
  | Returned a w' => f a w'
  | Thrown e w' => Thrown e w'
  end.

Definition throw {A : Type} (e : Exn) : M A := fun w => Thrown e w.

Definition log (ev : Event) : M unit := fun w =>
  Returned tt {| storage := storage w; trace := trace w ++ [ev] |}.

(** What [getItem] answers for a key, given the content of the storage. *)
Definition item (content : gmap string jsval) (key : string) : jsval :=
  default JNull (content !! key).

Definition getItem (key : string) : M jsval := fun w =>
  Returned (item (storage w) key) w.

Definition setItem (key : string) (value : jsval) : M unit := fun w =>
  Returned tt {| storage := <[key := value]> (storage w); trace := trace w |}.

Definition removeItem (key : string) : M unit := fun w =>
  Returned tt {| storage := delete key (storage w); trace := trace w |}.

(** [v.k] as an expression: a [TypeError] on [undefined] and [null]. *)
Definition get_prop (v : jsval) (k : string) : M jsval :=
  if nullish v then throw TypeError else mret (prop_of v k).

(** [a && b] *)
Definition js_and (a b : M jsval) : M jsval :=
  x ← a; if truthy x then b else mret x.

Definition Callback : Type := jsval -> jsval -> M unit.

(** The service passes each of its answers to the callback, one after the
    other; an exception of the callback is not caught. *)
Fixpoint deliver (callback : Callback) (answers : list (jsval * jsval))
  : M unit :=
  match answers with
  | [] => mret tt
  | (error, result) :: rest => callback error result ;; deliver callback rest
  end.

Definition call_newSessionCreateStruct (userService : UserService)
    (login password : jsval) : M jsval :=
  log (EvNewSessionCreateStruct login password) ;;
  mret (newSessionCreateStruct userService login password).

Definition call_createSession (userService : UserService)
    (sessionCreateStruct : jsval) (callback : Callback) : M unit :=
  log (EvCreateSession sessionCreateStruct) ;;
  deliver callback (createSession userService sessionCreateStruct).

Definition call_refreshSession (userService : UserService)
    (sessionId : jsval) (callback : Callback) : M unit :=
  log (EvRefreshSession sessionId) ;;
  deliver callback (refreshSession userService sessionId).

Definition call_deleteSession (userService : UserService)
    (sessionHref : jsval) (callback : Callback) : M unit :=
  log (EvDeleteSession sessionHref) ;;
  deliver callback (deleteSession userService sessionHref).

(** The callback of a caller who only records what it is told. *)
Definition report : Callback := fun error result => log (EvDone error result).

Definition report_request (error : jsval) (request : Request) : M unit :=
  log (EvRequestDone error request).

(** ** The agent *)

Module SessionAuthAgent.

Definition KEY_SESSION_NAME : string := "ezpRestClient.sessionName".
Definition KEY_SESSION_ID : string := "ezpRestClient.sessionId".
Definition KEY_SESSION_HREF : string := "ezpRestClient.sessionHref".
Definition KEY_CSRF_TOKEN : string := "ezpRestClient.csrfToken".

Definition SAFE_METHODS : gmap string jsval :=
  <["GET" := JNum 1]> (<["HEAD" := JNum 1]> (<["OPTIONS" := JNum 1]>
    (<["TRACE" := JNum 1]> ∅))).

(** The fields of [this].  [_CAPI] is [null] until [setCAPI] is called; a
    [CAPI] is represented by the user service its [getUserService]
    returns.  The storage the agent holds is the storage of the world. *)
Record Agent : Type := mkAgent {
  _CAPI : option UserService;
  _login : jsval;
  _password : jsval
}.

(** [this._CAPI.getUserService()] *)
Definition getUserService (this : Agent) : M UserService :=
  match _CAPI this with
  | None => throw TypeError
  | Some userService => log EvGetUserService ;; mret userService
  end.

Definition setCAPI (this : Agent) (CAPI : UserService) : Agent :=
  {| _CAPI := Some CAPI; _login := _login this; _password := _password this |}.

Definition setCredentials (this : Agent) (credentials : jsval) : M Agent :=
  login ← get_prop credentials "login";
  password ← get_prop credentials "password";
  mret {| _CAPI := _CAPI this; _login := login; _password := password |}.

Definition _resetStorage : M unit :=
  removeItem KEY_SESSION_NAME ;;
  removeItem KEY_SESSION_ID ;;
  removeItem KEY_SESSION_HREF ;;
  removeItem KEY_CSRF_TOKEN.

Definition _storeSessionInfo (session : jsval) : M unit :=
  name ← get_prop session "name";
  setItem KEY_SESSION_NAME name ;;
  href ← get_prop session "href";
  setItem KEY_SESSION_HREF href ;;
  identifier ← get_prop session "identifier";
  setItem KEY_SESSION_ID identifier ;;
  csrfToken ← get_prop session "csrfToken";
  setItem KEY_CSRF_TOKEN csrfToken.

(** [new SessionAuthAgent(authInfo, storage)]; an argument left out is
    [undefined]. *)
Definition new (authInfo : jsval) : M Agent :=
  let this := {| _CAPI := None; _login := JStr EmptyString; _password := JStr EmptyString |} in
  if truthy authInfo then
    credentials ← js_and (get_prop authInfo "login")
                         (get_prop authInfo "password");
    if truthy credentials then
      setCredentials this authInfo
    else
      sessionInfo ← js_and (js_and (js_and (get_prop authInfo "csrfToken")
                                           (get_prop authInfo "identifier"))
                                   (get_prop authInfo "name"))
                           (get_prop authInfo "href");
      if truthy sessionInfo then
        _storeSessionInfo authInfo ;; mret this
      else
        throw (CAPIError "Invalid authInfo parameter")
  else
    mret this.

Definition isLoggedIn (this : Agent) (callback : Callback) : M unit :=
  userService ← getUserService this;
  sessionId ← getItem KEY_SESSION_ID;
  if is_null sessionId then
    callback (JBool true) (JBool false)
  else
    call_refreshSession userService sessionId (fun error result =>
      (if truthy error then _resetStorage else mret tt) ;;
      callback error result).

(** The anonymous function [ensureAuthentication] passes to
    [createSession]. *)
Definition sessionCreated (done : Callback) : Callback :=
  fun error sessionResponse =>
    if truthy error then
      done error sessionResponse
    else
      document ← get_prop sessionResponse "document";
      session ← get_prop document "Session";
      name ← get_prop session "name";
      href ← get_prop session "_href";
      identifier ← get_prop session "identifier";
      csrfToken ← get_prop session "csrfToken";
      _storeSessionInfo
        (JObj (<["name" := name]> (<["href" := href]>
              (<["identifier" := identifier]>
              (<["csrfToken" := csrfToken]> ∅))))) ;;
      done (JBool false) sessionResponse.

Definition ensureAuthentication (this : Agent) (done : Callback) : M unit :=
  stored ← getItem KEY_SESSION_ID;
  if negb (is_null stored) then
    done (JBool false) (JBool true)
  else
    userService ← getUserService this;
    sessionCreateStruct ←
      call_newSessionCreateStruct userService (_login this) (_password this);
    call_createSession userService sessionCreateStruct (sessionCreated done).

Definition logOut (this : Agent) (done : Callback) : M unit :=
  userService ← getUserService this;
  sessionHref ← getItem KEY_SESSION_HREF;
  if is_null sessionHref then
    done (JBool false) (JBool true)
  else
    call_deleteSession userService sessionHref (fun error response =>
      (if negb (truthy error) then _resetStorage else mret tt) ;;
      done error response).

Definition logIn (this : Agent) (callback : Callback) : M unit :=
  stored ← getItem KEY_SESSION_ID;
  if negb (is_null stored) then
    logOut this (fun error result => ensureAuthentication this callback)
  else
    ensureAuthentication this callback.

Definition authenticateRequest (this : Agent) (request : Request)
    (done : jsval -> Request -> M unit) : M unit :=
  token ← getItem KEY_CSRF_TOKEN;
  if negb (is_one (js_lookup SAFE_METHODS (toUpperCase (method request))))
     && negb (is_null token)
  then done (JBool false) (set_header request "X-CSRF-Token" token)
  else done (JBool false) request.

End SessionAuthAgent.

Import SessionAuthAgent.

(** ** Vocabulary of the specification *)

(** Two characters are the same letter when they are equal or are the
    lower-case and upper-case forms of one letter of [a-z]. *)
Definition same_letter (a b : ascii) : bool :=
  Ascii.eqb a b
  || (is_lower a && (N_of_ascii a =? N_of_ascii b + 32)%N)
  || (is_lower b && (N_of_ascii b =? N_of_ascii a + 32)%N).

(** Equality of strings up to the case of their letters. *)
Fixpoint eq_ignore_case (s t : string) : bool :=
  match s, t with
  | EmptyString, EmptyString => true
  | String a s', String b t' => same_letter a b && eq_ignore_case s' t'
  | _, _ => false
  end.

Definition safe_names : list string := ["GET"; "HEAD"; "OPTIONS"; "TRACE"].

(** A method is safe when it is, up to case, one of the four safe names. *)
Definition safe_method (m : string) : bool :=
  existsb (eq_ignore_case m) safe_names.

Fixpoint no_lower (s : string) : bool :=
  match s with
  | EmptyString => true
  | String c s' => negb (is_lower c) && no_lower s'
  end.

(** Every character of the string is one of ASCII. *)
Fixpoint all_ascii (s : string) : bool :=
  match s with
  | EmptyString => true
  | String c s' => (N_of_ascii c <? 128)%N && all_ascii s'
  end.

(** The letters [a-z] of a string turned into [A-Z]. *)
Fixpoint upper_letters (s : string) : string :=
  match s with
  | EmptyString => EmptyString
  | String c s' => String (ascii_upper c) (upper_letters s')
  end.

(** The storage after the four fields of a session have been written. *)
Definition store_session (name href identifier csrfToken : jsval)
    (content : gmap string jsval) : gmap string jsval :=
  <[KEY_CSRF_TOKEN := csrfToken]> (<[KEY_SESSION_ID := identifier]>
    (<[KEY_SESSION_HREF := href]> (<[KEY_SESSION_NAME := name]> content))).

(** The storage after the four keys have been removed. *)
Definition clear_session (content : gmap string jsval) : gmap string jsval :=
  delete KEY_CSRF_TOKEN (delete KEY_SESSION_HREF
    (delete KEY_SESSION_ID (delete KEY_SESSION_NAME content))).

Definition session_keys : list string :=
  [KEY_SESSION_NAME; KEY_SESSION_ID; KEY_SESSION_HREF; KEY_CSRF_TOKEN].

(** The world an operation ends in, whether it returns or throws. *)
Definition final_world {A : Type} (o : outcome A) : World :=
  match o with Returned _ w => w | Thrown _ w => w end.

Definition is_service_call (ev : Event) : bool :=
  match ev with
  | EvNewSessionCreateStruct _ _ | EvCreateSession _
  | EvRefreshSession _ | EvDeleteSession _ => true
  | _ => false
  end.

(** The calls made to the user service, in order. *)
Definition service_calls (t : list Event) : list Event :=
  List.filter is_service_call t.

Definition is_done (ev : Event) : bool :=
  match ev with EvDone _ _ | EvRequestDone _ _ => true | _ => false end.

(** How many times a caller's callback has been invoked. *)
Definition done_count (t : list Event) : nat :=
  length (List.filter is_done t).

(** [sessionResponse.document.Session], when reading it does not throw
    and gives a value whose properties can be read. *)
Definition session_of (sessionResponse : jsval) : option jsval :=
  if nullish sessionResponse then None
  else
    let document := prop_of sessionResponse "document" in
    if nullish document then None
    else
      let session := prop_of document "Session" in
      if nullish session then None else Some session.

(** The storage after the session of a create answer has been written. *)
Definition store_created (session : jsval) (content : gmap string jsval)
  : gmap string jsval :=
  store_session (prop_of session "name") (prop_of session "_href")
    (prop_of session "identifier") (prop_of session "csrfToken") content.

(** [authInfo] carries a login and a password the constructor accepts: both
    properties are there and truthy.  A property that is missing reads as
    [undefined], which is falsy. *)
Definition has_credentials (authInfo : jsval) : bool :=
  truthy (prop_of authInfo "login") && truthy (prop_of authInfo "password").

(** [authInfo] carries the four fields of a session, all of them truthy. *)
Definition has_session_info (authInfo : jsval) : bool :=
  truthy (prop_of authInfo "csrfToken")
  && truthy (prop_of authInfo "identifier")
  && truthy (prop_of authInfo "name")
  && truthy (prop_of authInfo "href").

(** The agent right after its fields have been initialised. *)
Definition fresh_agent : Agent :=
  {| _CAPI := None; _login := JStr EmptyString; _password := JStr EmptyString |}.

Definition empty_world : World := {| storage := ∅; trace := [] |}.

(** Construction is refused with a [CAPIError]. *)
Definition rejected (o : outcome Agent) : Prop :=
  exists message w, o = Thrown (CAPIError message) w.

(** An operation resolves its callback once: it is one call of the
    callback, whatever the callback is, in a world reached without any
    call of a caller's callback. *)
Definition resolves_once (operation : Callback -> M unit) (w : World) : Prop :=
  exists error result w',
    done_count (trace w') = done_count (trace w)
    /\ forall callback : Callback,
         operation callback w = callback error result w'.

Definition resolves_request_once
    (operation : (jsval -> Request -> M unit) -> M unit) (w : World) : Prop :=
  exists error request w',
    done_count (trace w') = done_count (trace w)
    /\ forall done : jsval -> Request -> M unit,
         operation done w = done error request w'.

(** The contract of section 6: the user service answers every call exactly
    once, and a create answer without error carries [document.Session]. *)
Definition honours_contract (userService : UserService) : Prop :=
  (forall sessionCreateStruct, exists error sessionResponse,
      createSession userService sessionCreateStruct
        = [(error, sessionResponse)]
      /\ (truthy error = false -> is_Some (session_of sessionResponse)))
  /\ (forall sessionId, exists error result,
        refreshSession userService sessionId = [(error, result)])
  /\ (forall sessionHref, exists error response,
        deleteSession userService sessionHref = [(error, response)]).

(** Every error among the answers of the service has been passed to a
    caller's callback. *)
Definition errors_reported (answers : list (jsval * jsval))
    (t : list Event) : Prop :=
  forall error result,
    In (error, result) answers -> truthy error = true ->
    exists result', In (EvDone error result') t.

(** ** The scenarios of the specification and of the test suite *)

Definition session_abc : jsval :=
  JObj (list_to_map [("_href", JStr "/sessions/abc"); ("name", JStr "SESSID");
                     ("identifier", JStr "abc"); ("csrfToken", JStr "tok1")]).

Definition response_abc : jsval :=
  JObj {[ "document" := JObj {[ "Session" := session_abc ]} ]}.

(** A user service that grants everything, and one that refuses
    everything with [(true, false)]. *)
Definition mock_service : UserService :=
  {| newSessionCreateStruct login password :=
       JObj {[ "body" := JObj {[ "SessionInput" :=
         JObj (list_to_map [("login", login); ("password", password)]) ]} ]};
     createSession _ := [(JBool false, response_abc)];
     refreshSession _ := [(JBool false, JBool true)];
     deleteSession _ := [(JBool false, JBool true)] |}.

Definition faulty_service : UserService :=
  {| newSessionCreateStruct := newSessionCreateStruct mock_service;
     createSession _ := [(JBool true, JBool false)];
     refreshSession _ := [(JBool true, JBool false)];
     deleteSession _ := [(JBool true, JBool false)] |}.

Definition admin_agent (CAPI : UserService) : Agent :=
  {| _CAPI := Some CAPI; _login := JStr "admin"; _password := JStr "publish" |}.

Definition abc_storage : gmap string jsval :=
  store_session (JStr "SESSID") (JStr "/sessions/abc") (JStr "abc")
    (JStr "tok1") ∅.

Definition abc_world : World := {| storage := abc_storage; trace := [] |}.

Definition get_request : Request := {| method := "get"; headers := ∅ |}.
Definition post_request : Request := {| method := "POST"; headers := ∅ |}.


(** An [authInfo] with the credentials and the session of the two examples
    in the documentation of the constructor. *)
Definition mixed_authInfo : jsval :=
  JObj (list_to_map
    [("login", JStr "admin"); ("password", JStr "publish");
     ("name", JStr "eZSESSID"); ("identifier", JStr "sessionidentifier");
     ("href", JStr "/api/ezp/v2/users/session/sessionidentifier");
     ("csrfToken", JStr "longCsrfToken")]).

Definition session_authInfo : jsval :=
  JObj (list_to_map
    [("name", JStr "eZSESSID"); ("identifier", JStr "sessionidentifier");
     ("href", JStr "/api/ezp/v2/users/session/sessionidentifier");
     ("csrfToken", JStr "longCsrfToken")]).

(** ** Vocabulary of the storage discipline *)

(** The changes the agent makes to the storage: the four fields of a session
    written together, or the four keys removed together, any number of
    times.  [P] is what is known of the fields written. *)
Inductive session_steps (P : jsval -> jsval -> jsval -> jsval -> Prop)
  : gmap string jsval -> gmap string jsval -> Prop :=
| steps_none (s : gmap string jsval) : session_steps P s s
| steps_store (name href identifier csrfToken : jsval)
    (s s' : gmap string jsval) :
    P name href identifier csrfToken ->
    session_steps P s s' ->
    session_steps P s (store_session name href identifier csrfToken s')
| steps_clear (s s' : gmap string jsval) :
    session_steps P s s' -> session_steps P s (clear_session s').

Definition any_fields (name href identifier csrfToken : jsval) : Prop := True.

(** Four fields that [getItem] will each give back as something else than
    [null]. *)
Definition stored_fields (name href identifier csrfToken : jsval) : Prop :=
  name <> JNull /\ href <> JNull /\ identifier <> JNull /\ csrfToken <> JNull.

(** A computation whose effect on the storage is a sequence of such
    changes, whether it returns or throws. *)
Definition moves (P : jsval -> jsval -> jsval -> jsval -> Prop) {A : Type}
    (m : M A) : Prop :=
  forall w, session_steps P (storage w) (storage (final_world (m w))).

(** Every session a user service hands out on success has fields in [P]. *)
Definition carries (P : jsval -> jsval -> jsval -> jsval -> Prop)
    (userService : UserService) : Prop :=
  forall sessionCreateStruct error sessionResponse session,
    In (error, sessionResponse)
       (createSession userService sessionCreateStruct) ->
    truthy error = false ->
    session_of sessionResponse = Some session ->
    P (prop_of session "name") (prop_of session "_href")
      (prop_of session "identifier") (prop_of session "csrfToken").

(** The four keys are there together or missing together. *)
Definition coherent (content : gmap string jsval) : Prop :=
  (forall key, In key session_keys -> item content key = JNull)
  \/ (forall key, In key session_keys -> item content key <> JNull).

(** The response of the mock service of the test suite: a [body] holding
    JSON text, and no [document]. *)
Definition body_response : jsval :=
  JObj {[ "body" := JStr "{Session: {}}" ]}.

Definition body_service : UserService :=
  {| newSessionCreateStruct := newSessionCreateStruct mock_service;
     createSession _ := [(JBool false, body_response)];
     refreshSession _ := [(JBool false, JBool true)];
     deleteSession _ := [(JBool false, JBool true)] |}.

(** A user service that never answers, and one that answers twice. *)
Definition silent_service : UserService :=
  {| newSessionCreateStruct := newSessionCreateStruct mock_service;
     createSession _ := [];
     refreshSession _ := [];
     deleteSession _ := [] |}.

Definition stuttering_service : UserService :=
  {| newSessionCreateStruct := newSessionCreateStruct mock_service;
     createSession _ := [(JBool false, response_abc); (JBool true, JNull)];
     refreshSession _ := [(JBool true, JBool false); (JBool false, JBool true)];
     deleteSession _ := [(JBool false, JBool true); (JBool true, JBool false)] |}.

(** A storage that holds the session and a key of another component. *)
Definition shared_storage : gmap string jsval :=
  <["theme" := JStr "dark"]> abc_storage.

Definition shared_world : World := {| storage := shared_storage; trace := [] |}.

(** ** Strings *)

Lemma same_letter_upper (a b : ascii) :
  is_lower b = false -> same_letter a b = true <-> ascii_upper a = b.
Proof.
  intros Hb. unfold same_letter, ascii_upper. rewrite Hb. cbn [andb orb].
  rewrite orb_false_r, orb_true_iff, andb_true_iff, Ascii.eqb_eq, N.eqb_eq.
  split.
  - intros [-> | [Ha Hn]].
    + now rewrite Hb.
    + rewrite Ha, Hn, N.add_sub. apply ascii_N_embedding.
  - destruct (is_lower a) eqn:Ha.
    + intros <-. right. split; [reflexivity |].
      unfold is_lower in Ha. apply andb_true_iff in Ha as [Hlo Hhi].
      apply N.leb_le in Hlo. apply N.leb_le in Hhi.
      rewrite N_ascii_embedding by lia. lia.
    + intros ->. now left.
Qed.

Lemma eq_ignore_case_upper (t : string) :
  no_lower t = true ->
  forall s, eq_ignore_case s t = true <-> upper_letters s = t.
Proof.
  induction t as [| b t IH]; intros Ht s.
  - destruct s; cbn; split; congruence.
  - cbn in Ht. apply andb_true_iff in Ht as [Hb Ht].
    apply negb_true_iff in Hb.
    destruct s as [| a s]; cbn; [split; congruence |].
    rewrite andb_true_iff, (same_letter_upper a b Hb), (IH Ht s).
    split; [intros [-> ->]; reflexivity | intros [= -> ->]; auto].
Qed.

(** On a string of ASCII, [toUpperCase] only turns [a-z] into [A-Z]. *)
Lemma toUpperCase_ascii (s : string) :
  all_ascii s = true -> toUpperCase s = upper_letters s.
Proof.
  unfold toUpperCase. induction s as [| c s IH]; [reflexivity |].
  cbn [all_ascii]. intros Hs. apply andb_true_iff in Hs as [Hc Hs].
  cbn [upper_from upper_letters]. now rewrite Hc, IH.
Qed.

Lemma same_letter_ascii (a b : ascii) :
  same_letter a b = true ->
  (N_of_ascii b <? 128)%N = true -> (N_of_ascii a <? 128)%N = true.
Proof.
  unfold same_letter, is_lower. intros Hsame Hb.
  apply N.ltb_lt in Hb. apply N.ltb_lt.
  apply orb_true_iff in Hsame as [Hsame | Hsame];
    [apply orb_true_iff in Hsame as [Hsame | Hsame] |].
  - apply Ascii.eqb_eq in Hsame. now subst a.
  - apply andb_true_iff in Hsame as [Hlow _].
    apply andb_true_iff in Hlow as [_ Hhi]. apply N.leb_le in Hhi. lia.
  - apply andb_true_iff in Hsame as [_ Hn]. apply N.eqb_eq in Hn. lia.
Qed.

Lemma eq_ignore_case_ascii (s t : string) :
  eq_ignore_case s t = true -> all_ascii t = true -> all_ascii s = true.
Proof.
  revert t. induction s as [| a s IH]; intros [| b t]; cbn;
    try discriminate; [reflexivity |].
  intros Hsame Ht. apply andb_true_iff in Hsame as [Hab Hst].
  apply andb_true_iff in Ht as [Hb Ht].
  now rewrite (same_letter_ascii a b Hab Hb), (IH t Hst Ht).
Qed.

(** A method that is safe up to case is written in ASCII. *)
Lemma safe_method_ascii (m : string) :
  safe_method m = true -> all_ascii m = true.
Proof.
  unfold safe_method, safe_names. cbn [existsb]. intros Hsafe.
  repeat (apply orb_true_iff in Hsafe as [Hsafe | Hsafe];
          [now apply (eq_ignore_case_ascii m _ Hsafe) |]).
  discriminate Hsafe.
Qed.

(** On a method written in ASCII, the lookup in [SAFE_METHODS] of the
    source decides [safe_method]. *)
Lemma SAFE_METHODS_spec (m : string) :
  all_ascii m = true ->
  is_one (js_lookup SAFE_METHODS (toUpperCase m)) = safe_method m.
Proof.
  intros Hascii. rewrite (toUpperCase_ascii m Hascii).
  unfold safe_method, safe_names. cbn [existsb].
  assert (Hname : forall t, no_lower t = true ->
            eq_ignore_case m t = bool_decide (t = upper_letters m)).
  { intros t Ht. apply eq_true_iff_eq.
    rewrite (eq_ignore_case_upper t Ht m), bool_decide_eq_true.
    split; congruence. }
  rewrite !Hname by reflexivity.
  unfold js_lookup, SAFE_METHODS.
  rewrite !lookup_insert, lookup_empty.
  repeat (case_decide; [rewrite bool_decide_eq_true_2 by done; reflexivity |
                        rewrite bool_decide_eq_false_2 by done]).
  reflexivity.
Qed.

Lemma SAFE_METHODS_safe (m : string) :
  safe_method m = true ->
  is_one (js_lookup SAFE_METHODS (toUpperCase m)) = true.
Proof.
  intros Hsafe. now rewrite (SAFE_METHODS_spec m (safe_method_ascii m Hsafe)).
Qed.

(** ** The monad *)

Lemma bind_unit_ret (m : M unit) (w : World) : (m ;; mret tt) w = m w.
Proof. unfold mbind, M_bind, mret, M_ret. now destruct (m w) as [[] w' | e w']. Qed.

Lemma deliver_once (callback : Callback) (error result : jsval) (w : World) :
  deliver callback [(error, result)] w = callback error result w.
Proof. apply bind_unit_ret. Qed.

Ltac run_agent :=
  unfold ensureAuthentication, isLoggedIn, logOut, logIn, authenticateRequest,
    getUserService, call_newSessionCreateStruct, call_createSession,
    call_refreshSession, call_deleteSession, _resetStorage,
    getItem, removeItem, log, throw, mbind, M_bind, mret, M_ret;
  cbn [storage trace].

(** ** Storage *)

Lemma item_clear_session (content : gmap string jsval) (key : string) :
  In key session_keys -> item (clear_session content) key = JNull.
Proof.
  unfold session_keys, clear_session, item. cbn [In].
  intros [<- | [<- | [<- | [<- | []]]]];
    rewrite ?lookup_delete_eq, ?(lookup_delete_ne _ _ _) by done;
    try reflexivity;
    repeat (rewrite lookup_delete_ne by done); now rewrite lookup_delete_eq.
Qed.

Lemma item_store_session (name href identifier csrfToken : jsval)
    (content : gmap string jsval) :
  item (store_session name href identifier csrfToken content) KEY_SESSION_NAME
    = name
  /\ item (store_session name href identifier csrfToken content) KEY_SESSION_HREF
    = href
  /\ item (store_session name href identifier csrfToken content) KEY_SESSION_ID
    = identifier
  /\ item (store_session name href identifier csrfToken content) KEY_CSRF_TOKEN
    = csrfToken.
Proof.
  unfold store_session, item.
  repeat split;
    repeat (rewrite lookup_insert_ne by done); now rewrite lookup_insert_eq.
Qed.

(** ** ensureAuthentication with a stored session *)

(** C3: when the storage holds a session identifier, [ensureAuthentication]
    calls its callback with [(false, true)] in the very world it started
    in: the storage is unchanged and nothing was asked of the user service,
    whether or not a CAPI has been set.  With the recording callback the
    trace grows by that one report only. *)
Theorem ensureAuthentication_stored_session
    (this : Agent) (w : World) :
  item (storage w) KEY_SESSION_ID <> JNull ->
  (forall done : Callback,
     ensureAuthentication this done w = done (JBool false) (JBool true) w)
  /\ ensureAuthentication this report w
     = Returned tt {| storage := storage w;
                      trace := trace w ++ [EvDone (JBool false) (JBool true)] |}
  /\ service_calls
       (trace (final_world (ensureAuthentication this report w)))
     = service_calls (trace w).
Proof.
  intros Hid.
  assert (Hcb : forall done : Callback,
            ensureAuthentication this done w = done (JBool false) (JBool true) w).
  { intros done. run_agent.
    destruct (item (storage w) KEY_SESSION_ID); try reflexivity.
    now destruct Hid. }
  split; [exact Hcb |]. rewrite (Hcb report). unfold report, log.
  split; [reflexivity |]. cbn [final_world trace].
  unfold service_calls. rewrite List.filter_app. cbn. apply app_nil_r.
Qed.

Lemma service_calls_app (t u : list Event) :
  service_calls (t ++ u) = service_calls t ++ service_calls u.
Proof. apply List.filter_app. Qed.

Lemma done_count_app (t u : list Event) :
  done_count (t ++ u) = done_count t + done_count u.
Proof. unfold done_count. now rewrite List.filter_app, length_app. Qed.

(** ** isLoggedIn *)

(** C4: with a session identifier stored and a user service whose
    [refreshSession] answers with an error, [isLoggedIn] removes the four
    keys and then calls its callback with that error and result: the
    callback runs in a world whose storage has none of the four keys, after
    one [refreshSession] call for the stored identifier. *)
Theorem isLoggedIn_refresh_failure
    (this : Agent) (userService : UserService) (w : World)
    (error result : jsval) :
  _CAPI this = Some userService ->
  item (storage w) KEY_SESSION_ID <> JNull ->
  refreshSession userService (item (storage w) KEY_SESSION_ID)
    = [(error, result)] ->
  truthy error = true ->
  (forall callback : Callback,
     isLoggedIn this callback w
     = callback error result
         {| storage := clear_session (storage w);
            trace := trace w ++ [EvGetUserService;
              EvRefreshSession (item (storage w) KEY_SESSION_ID)] |})
  /\ (forall key, In key session_keys ->
        item (clear_session (storage w)) key = JNull).
Proof.
  intros Hcapi Hid Hanswer Herror. split; [| apply item_clear_session].
  intros callback. run_agent. rewrite Hcapi. cbn [storage trace].
  destruct (item (storage w) KEY_SESSION_ID) eqn:Hstored;
    try (now destruct Hid);
    cbn [is_null]; rewrite Hanswer, deliver_once;
    unfold mbind, M_bind; rewrite Herror; cbn [storage trace];
    now rewrite <- app_assoc.
Qed.

(** ** logOut *)

(** C5: with a session href stored and a user service whose
    [deleteSession] answers once, [logOut] asks for the deletion of the
    stored href and passes the answer to its callback unchanged; the
    callback runs with the four keys removed when the answer carries no
    error, and with the storage as it was when it carries one. *)
Theorem logOut_stored_session
    (this : Agent) (userService : UserService) (w : World)
    (error response : jsval) :
  _CAPI this = Some userService ->
  item (storage w) KEY_SESSION_HREF <> JNull ->
  deleteSession userService (item (storage w) KEY_SESSION_HREF)
    = [(error, response)] ->
  (forall done : Callback,
     logOut this done w
     = done error response
         {| storage := if truthy error then storage w
                       else clear_session (storage w);
            trace := trace w ++ [EvGetUserService;
              EvDeleteSession (item (storage w) KEY_SESSION_HREF)] |})
  /\ (forall key, In key session_keys ->
        item (clear_session (storage w)) key = JNull).
Proof.
  intros Hcapi Hhref Hanswer. split; [| apply item_clear_session].
  intros done. run_agent. rewrite Hcapi. cbn [storage trace].
  destruct (item (storage w) KEY_SESSION_HREF) eqn:Hstored;
    try (now destruct Hhref);
    cbn [is_null]; rewrite Hanswer, deliver_once;
    unfold mbind, M_bind; destruct (truthy error); cbn [negb storage trace];
    now rewrite <- app_assoc.
Qed.

(** C6: with no session href stored, [logOut] calls its callback with
    [(false, true)]; the storage is unchanged and the user service was
    fetched from the CAPI but none of its operations was called. *)
Theorem logOut_no_session
    (this : Agent) (userService : UserService) (w : World) :
  _CAPI this = Some userService ->
  item (storage w) KEY_SESSION_HREF = JNull ->
  (forall done : Callback,
     logOut this done w
     = done (JBool false) (JBool true)
         {| storage := storage w; trace := trace w ++ [EvGetUserService] |})
  /\ logOut this report w
     = Returned tt {| storage := storage w;
                      trace := trace w ++ [EvGetUserService;
                                 EvDone (JBool false) (JBool true)] |}
  /\ service_calls (trace (final_world (logOut this report w)))
     = service_calls (trace w).
Proof.
  intros Hcapi Hhref.
  assert (Hcb : forall done : Callback,
            logOut this done w
            = done (JBool false) (JBool true)
                {| storage := storage w;
                   trace := trace w ++ [EvGetUserService] |}).
  { intros done. run_agent. rewrite Hcapi. cbn [storage trace].
    now rewrite Hhref. }
  split; [exact Hcb |]. rewrite (Hcb report). unfold report, log.
  cbn [storage trace final_world]. rewrite <- app_assoc.
  split; [reflexivity |].
  rewrite service_calls_app. cbn. apply app_nil_r.
Qed.

(** Before [setCAPI], [logOut] and [isLoggedIn] throw when they fetch the
    user service, which they do before they look at the storage. *)
Remark lifecycle_without_CAPI (this : Agent) (callback : Callback) (w : World) :
  _CAPI this = None ->
  logOut this callback w = Thrown TypeError w
  /\ isLoggedIn this callback w = Thrown TypeError w.
Proof. intros Hnone. run_agent. now rewrite Hnone. Qed.

(** ** authenticateRequest *)

(** C7: for a request whose method is, up to case, GET, HEAD, OPTIONS or
    TRACE, [authenticateRequest] calls its callback with [false] and the
    request as it was, in the world it started in, whatever the storage
    holds. *)
Theorem authenticateRequest_safe_method
    (this : Agent) (request : Request) (w : World) :
  safe_method (method request) = true ->
  forall done : jsval -> Request -> M unit,
    authenticateRequest this request done w = done (JBool false) request w.
Proof.
  intros Hsafe done. run_agent.
  now rewrite (SAFE_METHODS_safe _ Hsafe).
Qed.


(** ** ensureAuthentication without a stored session *)

Lemma storeSessionInfo_run (session : jsval) (w : World) :
  nullish session = false ->
  _storeSessionInfo session w
  = Returned tt
      {| storage := store_session (prop_of session "name")
                      (prop_of session "href") (prop_of session "identifier")
                      (prop_of session "csrfToken") (storage w);
         trace := trace w |}.
Proof.
  intros Hsession.
  unfold _storeSessionInfo, get_prop, setItem, mbind, M_bind, mret, M_ret.
  now rewrite Hsession.
Qed.

Lemma session_literal (name href identifier csrfToken : jsval) :
  let session := JObj (<["name" := name]> (<["href" := href]>
                   (<["identifier" := identifier]>
                   (<["csrfToken" := csrfToken]> ∅)))) in
  prop_of session "name" = name /\ prop_of session "href" = href
  /\ prop_of session "identifier" = identifier
  /\ prop_of session "csrfToken" = csrfToken.
Proof.
  cbn [prop_of]. unfold js_lookup.
  repeat split;
    repeat (rewrite lookup_insert_ne by done); now rewrite lookup_insert_eq.
Qed.

(** What the callback given to [createSession] does with an answer. *)
Lemma sessionCreated_run (done : Callback) (error sessionResponse : jsval)
    (w : World) :
  sessionCreated done error sessionResponse w
  = if truthy error then done error sessionResponse w
    else match session_of sessionResponse with
         | Some session =>
             done (JBool false) sessionResponse
               {| storage := store_created session (storage w);
                  trace := trace w |}
         | None => Thrown TypeError w
         end.
Proof.
  unfold sessionCreated, session_of. destruct (truthy error); [reflexivity |].
  unfold get_prop at 1 2 3 4 5 6. unfold throw, mbind, M_bind, mret, M_ret.
  destruct (nullish sessionResponse); [reflexivity |].
  destruct (nullish (prop_of sessionResponse "document")); [reflexivity |].
  destruct (nullish (prop_of (prop_of sessionResponse "document") "Session"));
    [reflexivity |].
  rewrite storeSessionInfo_run by reflexivity.
  destruct (session_literal
    (prop_of (prop_of (prop_of sessionResponse "document") "Session") "name")
    (prop_of (prop_of (prop_of sessionResponse "document") "Session") "_href")
    (prop_of (prop_of (prop_of sessionResponse "document") "Session")
       "identifier")
    (prop_of (prop_of (prop_of sessionResponse "document") "Session")
       "csrfToken")) as (-> & -> & -> & ->).
  reflexivity.
Qed.

(** Up to the answers of [createSession], a first authentication is one
    fetch of the user service, one create structure and one create call. *)
Lemma ensureAuthentication_run (this : Agent) (userService : UserService)
    (w : World) (done : Callback) :
  _CAPI this = Some userService ->
  item (storage w) KEY_SESSION_ID = JNull ->
  ensureAuthentication this done w
  = deliver (sessionCreated done)
      (createSession userService
         (newSessionCreateStruct userService (_login this) (_password this)))
      {| storage := storage w;
         trace := trace w ++ [EvGetUserService;
           EvNewSessionCreateStruct (_login this) (_password this);
           EvCreateSession
             (newSessionCreateStruct userService (_login this)
                (_password this))] |}.
Proof.
  intros Hcapi Hid. run_agent. rewrite Hid, Hcapi. cbn [is_null negb storage trace].
  now rewrite <- !app_assoc.
Qed.

(** A callback that asks nothing of the user service keeps it that way
    however many answers it is given. *)
Lemma deliver_quiet (callback : Callback) :
  (forall error result w,
     service_calls (trace (final_world (callback error result w)))
     = service_calls (trace w)) ->
  forall answers w,
    service_calls (trace (final_world (deliver callback answers w)))
    = service_calls (trace w).
Proof.
  intros Hquiet answers.
  induction answers as [| [error result] rest IH]; intros w; [reflexivity |].
  cbn [deliver]. unfold mbind, M_bind.
  specialize (Hquiet error result w).
  destruct (callback error result w) as [[] w' | e w']; cbn [final_world] in *.
  - now rewrite IH.
  - exact Hquiet.
Qed.

Lemma sessionCreated_quiet (error sessionResponse : jsval) (w : World) :
  service_calls
    (trace (final_world (sessionCreated report error sessionResponse w)))
  = service_calls (trace w).
Proof.
  rewrite sessionCreated_run. unfold report, log.
  destruct (truthy error); [| destruct (session_of sessionResponse)];
    cbn [final_world trace storage]; try reflexivity;
    rewrite service_calls_app; apply app_nil_r.
Qed.

(** C2: an agent whose CAPI is set and whose storage holds no session
    identifier.  Whatever the user service answers, [ensureAuthentication]
    asks it for one create structure built from the held login and
    password and makes one [createSession] call with it, and nothing
    else.  When the service answers once, without error and with a response
    carrying [document.Session], the callback is called with [false] and
    that response, in a world where the four fields of the session have
    been written.  When the service answers once, whatever the answer, the
    storage ends either as it was or with all four fields written. *)
Theorem ensureAuthentication_first_time
    (this : Agent) (userService : UserService) (w : World) :
  _CAPI this = Some userService ->
  item (storage w) KEY_SESSION_ID = JNull ->
  let sessionCreateStruct :=
    newSessionCreateStruct userService (_login this) (_password this) in
  let requests :=
    [EvNewSessionCreateStruct (_login this) (_password this);
     EvCreateSession sessionCreateStruct] in
  service_calls (trace (final_world (ensureAuthentication this report w)))
  = service_calls (trace w) ++ requests
  /\ (forall error sessionResponse session,
        createSession userService sessionCreateStruct
          = [(error, sessionResponse)] ->
        truthy error = false ->
        session_of sessionResponse = Some session ->
        (forall done : Callback,
           ensureAuthentication this done w
           = done (JBool false) sessionResponse
               {| storage := store_created session (storage w);
                  trace := trace w ++ EvGetUserService :: requests |})
        /\ item (store_created session (storage w)) KEY_SESSION_NAME
           = prop_of session "name"
        /\ item (store_created session (storage w)) KEY_SESSION_HREF
           = prop_of session "_href"
        /\ item (store_created session (storage w)) KEY_SESSION_ID
           = prop_of session "identifier"
        /\ item (store_created session (storage w)) KEY_CSRF_TOKEN
           = prop_of session "csrfToken")
  /\ (forall error sessionResponse,
        createSession userService sessionCreateStruct
          = [(error, sessionResponse)] ->
        storage (final_world (ensureAuthentication this report w))
          = storage w
        \/ exists session,
             storage (final_world (ensureAuthentication this report w))
             = store_created session (storage w)).
Proof.
  intros Hcapi Hid sessionCreateStruct requests.
  split; [| split].
  - rewrite (ensureAuthentication_run this userService w report Hcapi Hid).
    rewrite (deliver_quiet _ sessionCreated_quiet). cbn [trace].
    rewrite service_calls_app. reflexivity.
  - intros error sessionResponse session Hanswer Herror Hsession.
    split; [| apply item_store_session].
    intros done.
    rewrite (ensureAuthentication_run this userService w done Hcapi Hid).
    fold sessionCreateStruct. rewrite Hanswer, deliver_once.
    rewrite sessionCreated_run, Herror, Hsession. reflexivity.
  - intros error sessionResponse Hanswer.
    rewrite (ensureAuthentication_run this userService w report Hcapi Hid).
    fold sessionCreateStruct. rewrite Hanswer, deliver_once.
    rewrite sessionCreated_run. unfold report, log.
    destruct (truthy error); [now left |].
    destruct (session_of sessionResponse) as [session |]; [| now left].
    right. now exists session.
Qed.

(** ** Construction *)

Lemma truthy_not_nullish (v : jsval) : truthy v = true -> nullish v = false.
Proof. now destruct v. Qed.

Lemma truthy_prop_not_nullish (v : jsval) (k : string) :
  truthy (prop_of v k) = true -> nullish v = false.
Proof. now destruct v. Qed.

(** The constructor, for an [authInfo] whose properties can be read. *)
Lemma new_run (authInfo : jsval) (w : World) :
  nullish authInfo = false -> truthy authInfo = true ->
  new authInfo w
  = if has_credentials authInfo then
      Returned {| _CAPI := None; _login := prop_of authInfo "login";
                  _password := prop_of authInfo "password" |} w
    else if has_session_info authInfo then
      Returned fresh_agent
        {| storage := store_session (prop_of authInfo "name")
                        (prop_of authInfo "href")
                        (prop_of authInfo "identifier")
                        (prop_of authInfo "csrfToken") (storage w);
           trace := trace w |}
    else Thrown (CAPIError "Invalid authInfo parameter") w.
Proof.
  intros Hnullish Htruthy.
  unfold new, has_credentials, has_session_info. rewrite Htruthy.
  unfold js_and, setCredentials, get_prop. rewrite Hnullish.
  unfold throw, mbind, M_bind, mret, M_ret. cbv beta iota.
  repeat match goal with
  | |- context [truthy (prop_of authInfo ?k)] =>
      destruct (truthy (prop_of authInfo k)) eqn:?; cbn [andb]; cbv beta iota
  end;
  try reflexivity; try congruence; now rewrite storeSessionInfo_run.
Qed.

(** C1, as the code has it: an [authInfo] that is supplied (truthy) and
    carries neither a truthy login and password nor four truthy session
    fields makes the constructor throw [CAPIError("Invalid authInfo
    parameter")], with the storage untouched; an [authInfo] that is left
    out, or is falsy, is accepted: the constructor returns the agent with
    empty credentials and leaves the storage untouched. *)
Theorem new_invalid_authInfo (authInfo : jsval) (w : World) :
  (truthy authInfo = true ->
   has_credentials authInfo = false ->
   has_session_info authInfo = false ->
   new authInfo w = Thrown (CAPIError "Invalid authInfo parameter") w)
  /\ (truthy authInfo = false -> new authInfo w = Returned fresh_agent w).
Proof.
  split.
  - intros Htruthy Hcredentials Hsession.
    rewrite new_run by auto using truthy_not_nullish.
    now rewrite Hcredentials, Hsession.
  - intros Hfalsy. unfold new. now rewrite Hfalsy.
Qed.

(** C1 fails as stated: with no [authInfo] there is neither a credential
    pair nor a session descriptor, and the constructor returns an agent. *)
Lemma new_without_authInfo_accepted :
  has_credentials JUndefined = false
  /\ has_session_info JUndefined = false
  /\ new JUndefined empty_world = Returned fresh_agent empty_world
  /\ ~ rejected (new JUndefined empty_world).
Proof.
  repeat split. intros (message & w & Hthrown). discriminate Hthrown.
Qed.

(** C10, as the code has it: an [authInfo] with four truthy session fields
    and without a truthy login and password makes the constructor write
    the four fields to the storage and return; afterwards
    [ensureAuthentication] finds the identifier and calls its callback with
    [(false, true)] at once, for the agent as returned and for the agent
    with any CAPI set. *)
Theorem new_session_info (authInfo : jsval) (w : World) :
  has_session_info authInfo = true ->
  has_credentials authInfo = false ->
  let w' := {| storage := store_session (prop_of authInfo "name")
                            (prop_of authInfo "href")
                            (prop_of authInfo "identifier")
                            (prop_of authInfo "csrfToken") (storage w);
               trace := trace w |} in
  new authInfo w = Returned fresh_agent w'
  /\ item (storage w') KEY_SESSION_NAME = prop_of authInfo "name"
  /\ item (storage w') KEY_SESSION_HREF = prop_of authInfo "href"
  /\ item (storage w') KEY_SESSION_ID = prop_of authInfo "identifier"
  /\ item (storage w') KEY_CSRF_TOKEN = prop_of authInfo "csrfToken"
  /\ (forall done : Callback,
        ensureAuthentication fresh_agent done w'
        = done (JBool false) (JBool true) w')
  /\ (forall (CAPI : UserService) (done : Callback),
        ensureAuthentication (setCAPI fresh_agent CAPI) done w'
        = done (JBool false) (JBool true) w').
Proof.
  intros Hsession Hcredentials w'.
  assert (Hfields := Hsession). unfold has_session_info in Hfields.
  apply andb_true_iff in Hfields as [Hfields Hhref].
  apply andb_true_iff in Hfields as [Hfields Hname].
  apply andb_true_iff in Hfields as [Htoken Hidentifier].
  assert (Hnullish : nullish authInfo = false)
    by exact (truthy_prop_not_nullish _ _ Hhref).
  assert (Htruthy : truthy authInfo = true) by now destruct authInfo.
  destruct (item_store_session (prop_of authInfo "name")
    (prop_of authInfo "href") (prop_of authInfo "identifier")
    (prop_of authInfo "csrfToken") (storage w))
    as (Hn & Hh & Hi & Hc).
  assert (Hauth : forall this (done : Callback),
            ensureAuthentication this done w'
            = done (JBool false) (JBool true) w').
  { intros this done. run_agent. fold w'.
    replace (item (storage w') KEY_SESSION_ID)
      with (prop_of authInfo "identifier") by (symmetry; exact Hi).
    now destruct (prop_of authInfo "identifier"). }
  split; [rewrite new_run by assumption; now rewrite Hcredentials, Hsession |].
  repeat split; auto.
Qed.

(** ** Every callback is resolved once *)

Section Resolution.

Variable this : Agent.
Variable userService : UserService.
Hypothesis HCAPI : _CAPI this = Some userService.
Hypothesis Hcontract : honours_contract userService.

Lemma ensureAuthentication_resolves (w : World) :
  resolves_once (ensureAuthentication this) w.
Proof.
  destruct (is_null (item (storage w) KEY_SESSION_ID)) eqn:Hnull.
  - assert (Hid : item (storage w) KEY_SESSION_ID = JNull)
      by (now destruct (item (storage w) KEY_SESSION_ID)).
    destruct Hcontract as (Hcreate & _ & _).
    destruct (Hcreate (newSessionCreateStruct userService (_login this)
                         (_password this)))
      as (error & sessionResponse & Hanswer & Hcarries).
    destruct (truthy error) eqn:Herror.
    + exists error, sessionResponse. eexists. split; [| intros callback].
      2: { rewrite (ensureAuthentication_run this userService w callback HCAPI Hid).
           rewrite Hanswer, deliver_once, sessionCreated_run, Herror.
           reflexivity. }
      cbn [trace]. rewrite done_count_app. cbn. lia.
    + destruct (Hcarries eq_refl) as [session Hsession].
      exists (JBool false), sessionResponse. eexists.
      split; [| intros callback].
      2: { rewrite (ensureAuthentication_run this userService w callback HCAPI Hid).
           rewrite Hanswer, deliver_once, sessionCreated_run, Herror, Hsession.
           reflexivity. }
      cbn [trace]. rewrite done_count_app. cbn. lia.
  - exists (JBool false), (JBool true), w. split; [reflexivity |].
    intros callback. run_agent. now rewrite Hnull.
Qed.

(** [isLoggedIn] and [logOut] pass the one answer of the service on. *)
Lemma isLoggedIn_stored_run (w : World) (error result : jsval) :
  item (storage w) KEY_SESSION_ID <> JNull ->
  refreshSession userService (item (storage w) KEY_SESSION_ID)
    = [(error, result)] ->
  forall callback : Callback,
    isLoggedIn this callback w
    = callback error result
        {| storage := if truthy error then clear_session (storage w)
                      else storage w;
           trace := trace w ++ [EvGetUserService;
             EvRefreshSession (item (storage w) KEY_SESSION_ID)] |}.
Proof.
  intros Hid Hanswer callback. run_agent. rewrite HCAPI. cbn [storage trace].
  destruct (item (storage w) KEY_SESSION_ID) eqn:Hstored;
    try (now destruct Hid);
    cbn [is_null]; rewrite Hanswer, deliver_once;
    unfold mbind, M_bind; destruct (truthy error); cbn [storage trace];
    now rewrite <- app_assoc.
Qed.

Lemma logOut_stored_run (w : World) (error response : jsval) :
  item (storage w) KEY_SESSION_HREF <> JNull ->
  deleteSession userService (item (storage w) KEY_SESSION_HREF)
    = [(error, response)] ->
  forall done : Callback,
    logOut this done w
    = done error response
        {| storage := if truthy error then storage w
                      else clear_session (storage w);
           trace := trace w ++ [EvGetUserService;
             EvDeleteSession (item (storage w) KEY_SESSION_HREF)] |}.
Proof.
  intros Hhref Hanswer done. run_agent. rewrite HCAPI. cbn [storage trace].
  destruct (item (storage w) KEY_SESSION_HREF) eqn:Hstored;
    try (now destruct Hhref);
    cbn [is_null]; rewrite Hanswer, deliver_once;
    unfold mbind, M_bind; destruct (truthy error); cbn [negb storage trace];
    now rewrite <- app_assoc.
Qed.

Lemma isLoggedIn_resolves (w : World) : resolves_once (isLoggedIn this) w.
Proof.
  destruct (is_null (item (storage w) KEY_SESSION_ID)) eqn:Hnull.
  - exists (JBool true), (JBool false). eexists. split; [| intros callback].
    2: { run_agent. rewrite HCAPI. cbn [storage trace]. rewrite Hnull.
         reflexivity. }
    cbn [trace]. rewrite done_count_app. cbn. lia.
  - assert (Hid : item (storage w) KEY_SESSION_ID <> JNull)
      by (intros Heq; now rewrite Heq in Hnull).
    destruct Hcontract as (_ & Hrefresh & _).
    destruct (Hrefresh (item (storage w) KEY_SESSION_ID))
      as (error & result & Hanswer).
    exists error, result. eexists. split; [| intros callback].
    2: { now rewrite (isLoggedIn_stored_run w error result Hid Hanswer). }
    cbn [trace]. rewrite done_count_app. cbn. lia.
Qed.

Lemma logOut_resolves (w : World) : resolves_once (logOut this) w.
Proof.
  destruct (is_null (item (storage w) KEY_SESSION_HREF)) eqn:Hnull.
  - exists (JBool false), (JBool true). eexists. split; [| intros done].
    2: { run_agent. rewrite HCAPI. cbn [storage trace]. rewrite Hnull.
         reflexivity. }
    cbn [trace]. rewrite done_count_app. cbn. lia.
  - assert (Hhref : item (storage w) KEY_SESSION_HREF <> JNull)
      by (intros Heq; now rewrite Heq in Hnull).
    destruct Hcontract as (_ & _ & Hdelete).
    destruct (Hdelete (item (storage w) KEY_SESSION_HREF))
      as (error & response & Hanswer).
    exists error, response. eexists. split; [| intros done].
    2: { now rewrite (logOut_stored_run w error response Hhref Hanswer). }
    cbn [trace]. rewrite done_count_app. cbn. lia.
Qed.

(** [logIn] is [ensureAuthentication], run after the [logOut] it may start
    with; what that [logOut] was answered is dropped. *)
Lemma logIn_run (w : World) :
  exists w1,
    done_count (trace w1) = done_count (trace w)
    /\ forall callback : Callback,
         logIn this callback w = ensureAuthentication this callback w1.
Proof.
  destruct (is_null (item (storage w) KEY_SESSION_ID)) eqn:Hnull.
  - exists w. split; [reflexivity |]. intros callback.
    unfold logIn, getItem, mbind, M_bind. now rewrite Hnull.
  - destruct (logOut_resolves w) as (error & result & w1 & Hcount & Hout).
    exists w1. split; [exact Hcount |]. intros callback.
    unfold logIn, getItem, mbind, M_bind. rewrite Hnull. cbn [negb].
    now rewrite Hout.
Qed.

Lemma logIn_resolves (w : World) : resolves_once (logIn this) w.
Proof.
  destruct (logIn_run w) as (w1 & Hcount1 & Hin).
  destruct (ensureAuthentication_resolves w1)
    as (error & result & w' & Hcount & Hauth).
  exists error, result, w'. split; [congruence |].
  intros callback. now rewrite Hin, Hauth.
Qed.

End Resolution.

Lemma authenticateRequest_resolves (this : Agent) (request : Request)
    (w : World) :
  resolves_request_once (authenticateRequest this request) w.
Proof.
  unfold resolves_request_once, authenticateRequest, getItem, mbind, M_bind.
  destruct (negb (is_one (js_lookup SAFE_METHODS
                            (toUpperCase (method request))))
            && negb (is_null (item (storage w) KEY_CSRF_TOKEN)));
    eexists _, _, w; split; reflexivity.
Qed.

(** C9, as the code has it: for an agent whose CAPI is set and whose user
    service honours its contract, each of the five operations is one call
    of its callback.  The answer of [createSession] with an error, the
    answer of [refreshSession] and the answer of [deleteSession] reach the
    callback of [ensureAuthentication], [isLoggedIn] and [logOut]
    unchanged.  [logIn] is [ensureAuthentication] run in the world its
    preliminary [logOut], if any, leaves: the answer to that [logOut] is
    not reported. *)
Theorem callbacks_resolved_once
    (this : Agent) (userService : UserService) (request : Request)
    (w : World) :
  _CAPI this = Some userService ->
  honours_contract userService ->
  (resolves_once (ensureAuthentication this) w
   /\ resolves_once (isLoggedIn this) w
   /\ resolves_once (logOut this) w
   /\ resolves_once (logIn this) w
   /\ resolves_request_once (authenticateRequest this request) w)
  /\ (forall error sessionResponse,
        item (storage w) KEY_SESSION_ID = JNull ->
        createSession userService
          (newSessionCreateStruct userService (_login this) (_password this))
          = [(error, sessionResponse)] ->
        truthy error = true ->
        exists w', forall done : Callback,
          ensureAuthentication this done w = done error sessionResponse w')
  /\ (forall error result,
        item (storage w) KEY_SESSION_ID <> JNull ->
        refreshSession userService (item (storage w) KEY_SESSION_ID)
          = [(error, result)] ->
        exists w', forall callback : Callback,
          isLoggedIn this callback w = callback error result w')
  /\ (forall error response,
        item (storage w) KEY_SESSION_HREF <> JNull ->
        deleteSession userService (item (storage w) KEY_SESSION_HREF)
          = [(error, response)] ->
        exists w', forall done : Callback,
          logOut this done w = done error response w')
  /\ (exists w1,
        done_count (trace w1) = done_count (trace w)
        /\ forall callback : Callback,
             logIn this callback w = ensureAuthentication this callback w1).
Proof.
  intros HCAPI Hcontract. repeat split.
  - now apply (ensureAuthentication_resolves this userService).
  - now apply (isLoggedIn_resolves this userService).
  - now apply (logOut_resolves this userService).
  - now apply (logIn_resolves this userService).
  - apply authenticateRequest_resolves.
  - intros error sessionResponse Hid Hanswer Herror. eexists. intros done.
    rewrite (ensureAuthentication_run this userService w done HCAPI Hid).
    rewrite Hanswer, deliver_once, sessionCreated_run, Herror. reflexivity.
  - intros error result Hid Hanswer. eexists. intros callback.
    now rewrite (isLoggedIn_stored_run this userService HCAPI w error result).
  - intros error response Hhref Hanswer. eexists. intros done.
    now rewrite (logOut_stored_run this userService HCAPI w error response).
  - now apply (logIn_run this userService).
Qed.

(** C9 fails as stated: with a session stored and a user service that
    refuses the deletion with error [true], [logIn] calls its callback
    once, with [(false, true)]; the error of [deleteSession] reaches no
    callback. *)
Lemma logIn_drops_logOut_error :
  deleteSession faulty_service (item abc_storage KEY_SESSION_HREF)
    = [(JBool true, JBool false)]
  /\ logIn (admin_agent faulty_service) report abc_world
     = Returned tt
         {| storage := abc_storage;
            trace := [EvGetUserService;
                      EvDeleteSession (JStr "/sessions/abc");
                      EvDone (JBool false) (JBool true)] |}
  /\ ~ errors_reported
        (deleteSession faulty_service (item abc_storage KEY_SESSION_HREF))
        (trace (final_world
                  (logIn (admin_agent faulty_service) report abc_world))).
Proof.
  assert (Hrun : logIn (admin_agent faulty_service) report abc_world
     = Returned tt
         {| storage := abc_storage;
            trace := [EvGetUserService;
                      EvDeleteSession (JStr "/sessions/abc");
                      EvDone (JBool false) (JBool true)] |})
    by (vm_compute; reflexivity).
  split; [reflexivity |]. split; [exact Hrun |].
  rewrite Hrun. cbn [final_world trace deleteSession faulty_service].
  intros Hreported.
  destruct (Hreported (JBool true) (JBool false)) as [result' Hin];
    [now left | reflexivity |].
  cbn in Hin. destruct Hin as [Hin | [Hin | [Hin | []]]]; discriminate Hin.
Qed.


(** C10 fails as stated: an [authInfo] that carries a complete session
    descriptor next to a login and a password is taken for credentials; the
    storage stays empty and the next [ensureAuthentication] asks the user
    service to create a session. *)
Lemma new_mixed_authInfo_not_stored :
  let this := {| _CAPI := None; _login := JStr "admin";
                 _password := JStr "publish" |} in
  has_session_info mixed_authInfo = true
  /\ new mixed_authInfo empty_world = Returned this empty_world
  /\ item (storage empty_world) KEY_SESSION_ID = JNull
  /\ service_calls
       (trace (final_world
          (ensureAuthentication (setCAPI this mock_service) report
             empty_world)))
     = [EvNewSessionCreateStruct (JStr "admin") (JStr "publish");
        EvCreateSession
          (newSessionCreateStruct mock_service (JStr "admin")
             (JStr "publish"))].
Proof. repeat split; vm_compute; reflexivity. Qed.

(** ** The theorems at the scenarios *)

Lemma new_invalid_authInfo_witness :
  new (JObj {[ "login" := JStr "admin" ]}) empty_world
  = Thrown (CAPIError "Invalid authInfo parameter") empty_world.
Proof.
  apply (proj1 (new_invalid_authInfo (JObj {[ "login" := JStr "admin" ]})
                  empty_world)); reflexivity.
Defined.

Lemma ensureAuthentication_first_time_witness :
  ensureAuthentication (admin_agent mock_service) report empty_world
  = Returned tt
      {| storage := abc_storage;
         trace := [EvGetUserService;
                   EvNewSessionCreateStruct (JStr "admin") (JStr "publish");
                   EvCreateSession
                     (newSessionCreateStruct mock_service (JStr "admin")
                        (JStr "publish"));
                   EvDone (JBool false) response_abc] |}.
Proof.
  destruct (ensureAuthentication_first_time (admin_agent mock_service)
              mock_service empty_world eq_refl eq_refl)
    as (_ & Hsuccess & _).
  destruct (Hsuccess (JBool false) response_abc session_abc
              eq_refl eq_refl eq_refl) as [Hrun _].
  rewrite Hrun. vm_compute. reflexivity.
Defined.

Lemma ensureAuthentication_stored_session_witness :
  ensureAuthentication (admin_agent mock_service) report abc_world
  = Returned tt {| storage := abc_storage;
                   trace := [EvDone (JBool false) (JBool true)] |}.
Proof.
  refine (proj1 (proj2 (ensureAuthentication_stored_session
                          (admin_agent mock_service) abc_world _))).
  vm_compute. discriminate.
Defined.

Lemma isLoggedIn_refresh_failure_witness :
  isLoggedIn (admin_agent faulty_service) report abc_world
  = Returned tt {| storage := ∅;
                   trace := [EvGetUserService; EvRefreshSession (JStr "abc");
                             EvDone (JBool true) (JBool false)] |}.
Proof.
  rewrite (proj1 (isLoggedIn_refresh_failure (admin_agent faulty_service)
                    faulty_service abc_world (JBool true) (JBool false)
                    eq_refl ltac:(vm_compute; discriminate)
                    eq_refl eq_refl)).
  vm_compute. reflexivity.
Defined.

Lemma logOut_stored_session_witness :
  logOut (admin_agent faulty_service) report abc_world
  = Returned tt {| storage := abc_storage;
                   trace := [EvGetUserService;
                             EvDeleteSession (JStr "/sessions/abc");
                             EvDone (JBool true) (JBool false)] |}
  /\ logOut (admin_agent mock_service) report abc_world
     = Returned tt {| storage := ∅;
                      trace := [EvGetUserService;
                                EvDeleteSession (JStr "/sessions/abc");
                                EvDone (JBool false) (JBool true)] |}.
Proof.
  split.
  - rewrite (proj1 (logOut_stored_session (admin_agent faulty_service)
                      faulty_service abc_world (JBool true) (JBool false)
                      eq_refl ltac:(vm_compute; discriminate) eq_refl)).
    vm_compute. reflexivity.
  - rewrite (proj1 (logOut_stored_session (admin_agent mock_service)
                      mock_service abc_world (JBool false) (JBool true)
                      eq_refl ltac:(vm_compute; discriminate) eq_refl)).
    vm_compute. reflexivity.
Defined.

Lemma logOut_no_session_witness :
  logOut (admin_agent mock_service) report empty_world
  = Returned tt {| storage := ∅;
                   trace := [EvGetUserService;
                             EvDone (JBool false) (JBool true)] |}.
Proof.
  exact (proj1 (proj2 (logOut_no_session (admin_agent mock_service)
                         mock_service empty_world eq_refl eq_refl))).
Defined.

Lemma authenticateRequest_safe_method_witness :
  authenticateRequest (admin_agent mock_service) get_request report_request
    abc_world
  = Returned tt {| storage := abc_storage;
                   trace := [EvRequestDone (JBool false) get_request] |}.
Proof.
  rewrite (authenticateRequest_safe_method (admin_agent mock_service)
             get_request abc_world eq_refl).
  reflexivity.
Defined.


Lemma callbacks_resolved_once_witness :
  resolves_once (logIn (admin_agent mock_service)) abc_world
  /\ resolves_once (logIn (admin_agent faulty_service)) abc_world.
Proof.
  split.
  - refine (proj1 (proj2 (proj2 (proj2 (proj1
      (callbacks_resolved_once (admin_agent mock_service) mock_service
         get_request abc_world eq_refl _)))))).
    repeat split; intros; eexists _, _; try split; try reflexivity.
    intros _. now exists session_abc.
  - refine (proj1 (proj2 (proj2 (proj2 (proj1
      (callbacks_resolved_once (admin_agent faulty_service) faulty_service
         get_request abc_world eq_refl _)))))).
    repeat split; intros; eexists _, _; try split; try reflexivity.
    discriminate.
Defined.

Lemma new_session_info_witness :
  new session_authInfo empty_world
  = Returned fresh_agent
      {| storage := store_session (JStr "eZSESSID")
           (JStr "/api/ezp/v2/users/session/sessionidentifier")
           (JStr "sessionidentifier") (JStr "longCsrfToken") ∅;
         trace := [] |}.
Proof.
  rewrite (proj1 (new_session_info session_authInfo empty_world
                    eq_refl eq_refl)).
  vm_compute. reflexivity.
Defined.

(** ** The storage discipline *)

Section Discipline.

Variable P : jsval -> jsval -> jsval -> jsval -> Prop.

Lemma steps_trans (s1 s2 s3 : gmap string jsval) :
  session_steps P s1 s2 -> session_steps P s2 s3 -> session_steps P s1 s3.
Proof.
  intros H12 H23. induction H23 as [| n h i c s s' Hfields _ IH | s s' _ IH].
  - exact H12.
  - apply steps_store; [exact Hfields | now apply IH].
  - apply steps_clear. now apply IH.
Qed.

Lemma moves_same {A : Type} (m : M A) :
  (forall w, storage (final_world (m w)) = storage w) -> moves P m.
Proof. intros Hsame w. rewrite Hsame. apply steps_none. Qed.

(** Sequencing, with what is known of the value the first part returns. *)
Lemma moves_bind {A B : Type} (m : M A) (f : A -> M B) (Q : A -> Prop) :
  moves P m ->
  (forall w a w', m w = Returned a w' -> Q a) ->
  (forall a, Q a -> moves P (f a)) ->
  moves P (m ≫= f).
Proof.
  intros Hm Hpost Hf w. unfold mbind, M_bind.
  specialize (Hm w). specialize (Hpost w).
  destruct (m w) as [a w' | e w']; cbn [final_world] in *; [| exact Hm].
  eapply steps_trans; [exact Hm |]. now apply Hf, (Hpost a w').
Qed.

Lemma moves_seq {A B : Type} (m : M A) (f : A -> M B) :
  moves P m -> (forall a, moves P (f a)) -> moves P (m ≫= f).
Proof.
  intros Hm Hf. apply (moves_bind m f (fun _ => True)); auto.
Qed.

Lemma moves_deliver (callback : Callback) (answers : list (jsval * jsval)) :
  (forall error result, In (error, result) answers ->
     moves P (callback error result)) ->
  moves P (deliver callback answers).
Proof.
  induction answers as [| [error result] rest IH]; intros Hcallback.
  - now apply moves_same.
  - cbn [deliver]. apply moves_seq.
    + apply Hcallback. now left.
    + intros _. apply IH. intros e r Hin. apply Hcallback. now right.
Qed.

Lemma moves_getItem (key : string) : moves P (getItem key).
Proof. now apply moves_same. Qed.

Lemma moves_log (ev : Event) : moves P (log ev).
Proof. now apply moves_same. Qed.

Lemma moves_getUserService (this : Agent) : moves P (getUserService this).
Proof.
  apply moves_same. intros w. unfold getUserService.
  now destruct (_CAPI this).
Qed.

Lemma getUserService_returns (this : Agent) (w w' : World)
    (userService : UserService) :
  getUserService this w = Returned userService w' ->
  _CAPI this = Some userService.
Proof.
  unfold getUserService. destruct (_CAPI this); [| discriminate].
  unfold mbind, M_bind, log, mret, M_ret. now intros [= -> _].
Qed.

Lemma moves_resetStorage : moves P _resetStorage.
Proof. intros w. apply steps_clear, steps_none. Qed.

Lemma moves_storeSessionInfo (session : jsval) :
  (nullish session = false ->
   P (prop_of session "name") (prop_of session "href")
     (prop_of session "identifier") (prop_of session "csrfToken")) ->
  moves P (_storeSessionInfo session).
Proof.
  intros Hfields w. destruct (nullish session) eqn:Hnullish.
  - unfold _storeSessionInfo, get_prop, mbind, M_bind. rewrite Hnullish.
    apply steps_none.
  - rewrite storeSessionInfo_run by exact Hnullish.
    apply steps_store; [now apply Hfields | apply steps_none].
Qed.

Lemma moves_sessionCreated (done : Callback) (error sessionResponse : jsval) :
  (forall e r, moves P (done e r)) ->
  (truthy error = false -> forall session,
     session_of sessionResponse = Some session ->
     P (prop_of session "name") (prop_of session "_href")
       (prop_of session "identifier") (prop_of session "csrfToken")) ->
  moves P (sessionCreated done error sessionResponse).
Proof.
  intros Hdone Hfields w. rewrite sessionCreated_run.
  destruct (truthy error); [apply Hdone |].
  destruct (session_of sessionResponse) as [session |]; [| apply steps_none].
  eapply steps_trans; [| apply Hdone]. cbn [storage].
  apply steps_store; [now apply Hfields | apply steps_none].
Qed.

Lemma moves_ensureAuthentication (this : Agent) (done : Callback) :
  (forall e r, moves P (done e r)) ->
  (forall userService, _CAPI this = Some userService ->
     carries P userService) ->
  moves P (ensureAuthentication this done).
Proof.
  intros Hdone Hcarries. unfold ensureAuthentication.
  apply moves_seq; [apply moves_getItem |]. intros stored.
  destruct (negb (is_null stored)); [apply Hdone |].
  apply (moves_bind _ _ (fun userService => _CAPI this = Some userService)).
  - apply moves_getUserService.
  - intros w userService w'. apply getUserService_returns.
  - intros userService HCAPI. unfold call_newSessionCreateStruct.
    apply moves_seq; [apply moves_seq; [apply moves_log |] |].
    + intros _. now apply moves_same.
    + intros sessionCreateStruct. unfold call_createSession.
      apply moves_seq; [apply moves_log |]. intros _.
      apply moves_deliver. intros error sessionResponse Hin.
      apply moves_sessionCreated; [exact Hdone |].
      intros Herror session Hsession.
      exact (Hcarries userService HCAPI _ _ _ _ Hin Herror Hsession).
Qed.

Lemma moves_isLoggedIn (this : Agent) (callback : Callback) :
  (forall e r, moves P (callback e r)) -> moves P (isLoggedIn this callback).
Proof.
  intros Hcallback. unfold isLoggedIn.
  apply moves_seq; [apply moves_getUserService |]. intros userService.
  apply moves_seq; [apply moves_getItem |]. intros sessionId.
  destruct (is_null sessionId); [apply Hcallback |].
  unfold call_refreshSession. apply moves_seq; [apply moves_log |]. intros _.
  apply moves_deliver. intros error result _.
  apply moves_seq; [| intros _; apply Hcallback].
  destruct (truthy error); [apply moves_resetStorage | now apply moves_same].
Qed.

Lemma moves_logOut (this : Agent) (done : Callback) :
  (forall e r, moves P (done e r)) -> moves P (logOut this done).
Proof.
  intros Hdone. unfold logOut.
  apply moves_seq; [apply moves_getUserService |]. intros userService.
  apply moves_seq; [apply moves_getItem |]. intros sessionHref.
  destruct (is_null sessionHref); [apply Hdone |].
  unfold call_deleteSession. apply moves_seq; [apply moves_log |]. intros _.
  apply moves_deliver. intros error response _.
  apply moves_seq; [| intros _; apply Hdone].
  destruct (negb (truthy error));
    [apply moves_resetStorage | now apply moves_same].
Qed.

Lemma moves_logIn (this : Agent) (callback : Callback) :
  (forall e r, moves P (callback e r)) ->
  (forall userService, _CAPI this = Some userService ->
     carries P userService) ->
  moves P (logIn this callback).
Proof.
  intros Hcallback Hcarries. unfold logIn.
  apply moves_seq; [apply moves_getItem |]. intros stored.
  destruct (negb (is_null stored)).
  - apply moves_logOut. intros _ _. now apply moves_ensureAuthentication.
  - now apply moves_ensureAuthentication.
Qed.

Lemma moves_report (error result : jsval) : moves P (report error result).
Proof. apply moves_log. Qed.

End Discipline.

Lemma carries_any (userService : UserService) : carries any_fields userService.
Proof. now intros s e r session _ _ _. Qed.

Lemma steps_frame (P : jsval -> jsval -> jsval -> jsval -> Prop)
    (s s' : gmap string jsval) (key : string) :
  session_steps P s s' -> ~ In key session_keys -> s' !! key = s !! key.
Proof.
  intros Hsteps Hkey.
  assert (Hname : KEY_SESSION_NAME <> key) by (intros <-; apply Hkey; cbn; auto).
  assert (Hid : KEY_SESSION_ID <> key) by (intros <-; apply Hkey; cbn; auto).
  assert (Hhref : KEY_SESSION_HREF <> key) by (intros <-; apply Hkey; cbn; auto).
  assert (Htoken : KEY_CSRF_TOKEN <> key) by (intros <-; apply Hkey; cbn; auto).
  induction Hsteps as [| n h i c s s' _ _ IH | s s' _ IH].
  - reflexivity.
  - unfold store_session. now rewrite !lookup_insert_ne.
  - unfold clear_session. now rewrite !lookup_delete_ne.
Qed.

Lemma steps_coherent (s s' : gmap string jsval) :
  session_steps stored_fields s s' -> coherent s -> coherent s'.
Proof.
  intros Hsteps Hs.
  induction Hsteps as [| n h i c s s' (Hn & Hh & Hi & Hc) _ _ | s s' _ _].
  - exact Hs.
  - right. intros key Hkey.
    destruct (item_store_session n h i c s') as (En & Eh & Ei & Ec).
    cbn [session_keys In] in Hkey.
    destruct Hkey as [<- | [<- | [<- | [<- | []]]]]; congruence.
  - left. apply item_clear_session.
Qed.

Lemma moves_new (authInfo : jsval) : moves stored_fields (new authInfo).
Proof.
  intros w. destruct (truthy authInfo) eqn:Htruthy.
  - rewrite new_run by auto using truthy_not_nullish.
    destruct (has_credentials authInfo); [apply steps_none |].
    destruct (has_session_info authInfo) eqn:Hsession; [| apply steps_none].
    unfold has_session_info in Hsession.
    apply andb_true_iff in Hsession as [Hsession Hhref].
    apply andb_true_iff in Hsession as [Hsession Hname].
    apply andb_true_iff in Hsession as [Htoken Hidentifier].
    cbn [final_world storage].
    apply steps_store; [| apply steps_none].
    repeat split; intros Heq; rewrite Heq in *; discriminate.
  - unfold new. rewrite Htruthy. apply steps_none.
Qed.

(** X1: The agent keeps to its four keys: whatever the user service answers,
    and however often, no operation and no construction changes what the
    storage holds under any other key. *)
Theorem other_keys_untouched
    (this : Agent) (authInfo : jsval) (w : World) (key : string) :
  ~ In key session_keys ->
  storage (final_world (ensureAuthentication this report w)) !! key
    = storage w !! key
  /\ storage (final_world (isLoggedIn this report w)) !! key
     = storage w !! key
  /\ storage (final_world (logOut this report w)) !! key = storage w !! key
  /\ storage (final_world (logIn this report w)) !! key = storage w !! key
  /\ storage (final_world (new authInfo w)) !! key = storage w !! key.
Proof.
  intros Hkey. repeat split.
  - apply (steps_frame any_fields); [| exact Hkey].
    apply moves_ensureAuthentication;
      [apply moves_report | intros; apply carries_any].
  - apply (steps_frame any_fields); [| exact Hkey].
    apply moves_isLoggedIn, moves_report.
  - apply (steps_frame any_fields); [| exact Hkey].
    apply moves_logOut, moves_report.
  - apply (steps_frame any_fields); [| exact Hkey].
    apply moves_logIn; [apply moves_report | intros; apply carries_any].
  - apply (steps_frame stored_fields); [apply moves_new | exact Hkey].
Qed.

Lemma other_keys_untouched_witness :
  storage (final_world (logIn (admin_agent stuttering_service) report
                          shared_world)) !! "theme"
  = Some (JStr "dark").
Proof.
  rewrite (proj1 (proj2 (proj2 (proj2
    (other_keys_untouched (admin_agent stuttering_service) JUndefined
       shared_world "theme" ltac:(vm_compute; intuition discriminate)))))).
  vm_compute. reflexivity.
Defined.

(** X2: The session invariant: when the sessions the user service hands out
    have four fields other than [null], a storage in which the four keys
    are there together or missing together stays so through every
    operation, whatever the service answers and however often, and through
    construction. *)
Theorem session_stays_coherent
    (this : Agent) (authInfo : jsval) (w : World) :
  (forall userService, _CAPI this = Some userService ->
     carries stored_fields userService) ->
  coherent (storage w) ->
  coherent (storage (final_world (ensureAuthentication this report w)))
  /\ coherent (storage (final_world (isLoggedIn this report w)))
  /\ coherent (storage (final_world (logOut this report w)))
  /\ coherent (storage (final_world (logIn this report w)))
  /\ coherent (storage (final_world (new authInfo w))).
Proof.
  intros Hcarries Hw. repeat split;
    (eapply steps_coherent; [| exact Hw]).
  - apply moves_ensureAuthentication; [apply moves_report | exact Hcarries].
  - apply moves_isLoggedIn, moves_report.
  - apply moves_logOut, moves_report.
  - apply moves_logIn; [apply moves_report | exact Hcarries].
  - apply moves_new.
Qed.

Lemma session_stays_coherent_witness :
  coherent (storage (final_world
    (logIn (admin_agent stuttering_service) report abc_world))).
Proof.
  refine (proj1 (proj2 (proj2 (proj2
    (session_stays_coherent (admin_agent stuttering_service) JUndefined
       abc_world _ _))))).
  - intros userService [= <-] sessionCreateStruct error sessionResponse
      session [[= <- <-] | [[= <- <-] | []]] Herror Hsession.
    + injection Hsession as <-. vm_compute. repeat split; discriminate.
    + discriminate Herror.
  - right. intros key [<- | [<- | [<- | [<- | []]]]]; vm_compute; discriminate.
Defined.

(** ** The other paths of the operations *)

Lemma is_null_false (v : jsval) : v <> JNull -> is_null v = false.
Proof. intros Hv. destruct v; try reflexivity. now destruct Hv. Qed.

Lemma ensureAuthentication_stored_run (this : Agent) (w : World)
    (done : Callback) :
  item (storage w) KEY_SESSION_ID <> JNull ->
  ensureAuthentication this done w = done (JBool false) (JBool true) w.
Proof. intros Hid. run_agent. now rewrite (is_null_false _ Hid). Qed.

Lemma logOut_none_run (this : Agent) (userService : UserService) (w : World)
    (done : Callback) :
  _CAPI this = Some userService ->
  item (storage w) KEY_SESSION_HREF = JNull ->
  logOut this done w
  = done (JBool false) (JBool true)
      {| storage := storage w; trace := trace w ++ [EvGetUserService] |}.
Proof.
  intros HCAPI Hhref. run_agent. rewrite HCAPI. cbn [storage trace].
  now rewrite Hhref.
Qed.

(** X3: [isLoggedIn] with nothing to refresh: when no session identifier is
    stored the callback is told [(true, false)], the storage is unchanged,
    and the user service, fetched from the CAPI, is not called. *)
Theorem isLoggedIn_no_session
    (this : Agent) (userService : UserService) (w : World) :
  _CAPI this = Some userService ->
  item (storage w) KEY_SESSION_ID = JNull ->
  (forall callback : Callback,
     isLoggedIn this callback w
     = callback (JBool true) (JBool false)
         {| storage := storage w; trace := trace w ++ [EvGetUserService] |})
  /\ service_calls (trace (final_world (isLoggedIn this report w)))
     = service_calls (trace w).
Proof.
  intros HCAPI Hid.
  assert (Hrun : forall callback : Callback,
     isLoggedIn this callback w
     = callback (JBool true) (JBool false)
         {| storage := storage w; trace := trace w ++ [EvGetUserService] |}).
  { intros callback. run_agent. rewrite HCAPI. cbn [storage trace].
    now rewrite Hid. }
  split; [exact Hrun |]. rewrite Hrun. unfold report, log.
  cbn [final_world storage trace].
  rewrite !service_calls_app. cbn. now rewrite !app_nil_r.
Qed.

Lemma isLoggedIn_no_session_witness :
  isLoggedIn (admin_agent mock_service) report empty_world
  = Returned tt {| storage := ∅;
                   trace := [EvGetUserService;
                             EvDone (JBool true) (JBool false)] |}.
Proof.
  rewrite (proj1 (isLoggedIn_no_session (admin_agent mock_service)
                    mock_service empty_world eq_refl eq_refl)).
  reflexivity.
Defined.

(** X4: A refresh that succeeds changes nothing: with a session identifier
    stored and a refresh answer without error, the callback receives that
    answer and the storage is as it was. *)
Theorem isLoggedIn_refresh_success
    (this : Agent) (userService : UserService) (w : World)
    (error result : jsval) :
  _CAPI this = Some userService ->
  item (storage w) KEY_SESSION_ID <> JNull ->
  refreshSession userService (item (storage w) KEY_SESSION_ID)
    = [(error, result)] ->
  truthy error = false ->
  forall callback : Callback,
    isLoggedIn this callback w
    = callback error result
        {| storage := storage w;
           trace := trace w ++ [EvGetUserService;
             EvRefreshSession (item (storage w) KEY_SESSION_ID)] |}.
Proof.
  intros HCAPI Hid Hanswer Herror callback.
  rewrite (isLoggedIn_stored_run this userService HCAPI w error result
             Hid Hanswer).
  now rewrite Herror.
Qed.

Lemma isLoggedIn_refresh_success_witness :
  isLoggedIn (admin_agent mock_service) report abc_world
  = Returned tt {| storage := abc_storage;
                   trace := [EvGetUserService; EvRefreshSession (JStr "abc");
                             EvDone (JBool false) (JBool true)] |}.
Proof.
  rewrite (isLoggedIn_refresh_success (admin_agent mock_service) mock_service
             abc_world (JBool false) (JBool true) eq_refl
             ltac:(vm_compute; discriminate) eq_refl eq_refl).
  vm_compute. reflexivity.
Defined.

(** X5: A create request that fails leaves the agent unauthenticated: the
    callback receives the error and the response of the service unchanged,
    and nothing is written to the storage. *)
Theorem ensureAuthentication_create_failure
    (this : Agent) (userService : UserService) (w : World)
    (error sessionResponse : jsval) :
  _CAPI this = Some userService ->
  item (storage w) KEY_SESSION_ID = JNull ->
  createSession userService
    (newSessionCreateStruct userService (_login this) (_password this))
    = [(error, sessionResponse)] ->
  truthy error = true ->
  forall done : Callback,
    ensureAuthentication this done w
    = done error sessionResponse
        {| storage := storage w;
           trace := trace w ++ [EvGetUserService;
             EvNewSessionCreateStruct (_login this) (_password this);
             EvCreateSession
               (newSessionCreateStruct userService (_login this)
                  (_password this))] |}.
Proof.
  intros HCAPI Hid Hanswer Herror done.
  rewrite (ensureAuthentication_run this userService w done HCAPI Hid).
  now rewrite Hanswer, deliver_once, sessionCreated_run, Herror.
Qed.

Lemma ensureAuthentication_create_failure_witness :
  ensureAuthentication (admin_agent faulty_service) report empty_world
  = Returned tt
      {| storage := ∅;
         trace := [EvGetUserService;
                   EvNewSessionCreateStruct (JStr "admin") (JStr "publish");
                   EvCreateSession
                     (newSessionCreateStruct mock_service (JStr "admin")
                        (JStr "publish"));
                   EvDone (JBool true) (JBool false)] |}.
Proof.
  rewrite (ensureAuthentication_create_failure (admin_agent faulty_service)
             faulty_service empty_world (JBool true) (JBool false)
             eq_refl eq_refl eq_refl eq_refl).
  reflexivity.
Defined.

(** X6: A create answer without error whose response has no
    [document.Session] to read makes [ensureAuthentication] throw a
    [TypeError] out of the callback it gave the service: nothing is written
    to the storage and the caller's callback is never called. *)
Theorem ensureAuthentication_malformed_response
    (this : Agent) (userService : UserService) (w : World)
    (error sessionResponse : jsval) :
  _CAPI this = Some userService ->
  item (storage w) KEY_SESSION_ID = JNull ->
  createSession userService
    (newSessionCreateStruct userService (_login this) (_password this))
    = [(error, sessionResponse)] ->
  truthy error = false ->
  session_of sessionResponse = None ->
  forall done : Callback,
    ensureAuthentication this done w
    = Thrown TypeError
        {| storage := storage w;
           trace := trace w ++ [EvGetUserService;
             EvNewSessionCreateStruct (_login this) (_password this);
             EvCreateSession
               (newSessionCreateStruct userService (_login this)
                  (_password this))] |}.
Proof.
  intros HCAPI Hid Hanswer Herror Hsession done.
  rewrite (ensureAuthentication_run this userService w done HCAPI Hid).
  now rewrite Hanswer, deliver_once, sessionCreated_run, Herror, Hsession.
Qed.

Lemma ensureAuthentication_malformed_response_witness :
  ensureAuthentication (admin_agent body_service) report empty_world
  = Thrown TypeError
      {| storage := ∅;
         trace := [EvGetUserService;
                   EvNewSessionCreateStruct (JStr "admin") (JStr "publish");
                   EvCreateSession
                     (newSessionCreateStruct mock_service (JStr "admin")
                        (JStr "publish"))] |}.
Proof.
  rewrite (ensureAuthentication_malformed_response (admin_agent body_service)
             body_service empty_world (JBool false) body_response
             eq_refl eq_refl eq_refl eq_refl eq_refl).
  reflexivity.
Defined.

(** X7: Without a CAPI: [isLoggedIn], [logOut] and [logIn] throw a [TypeError]
    before they touch anything, whatever the storage holds, and never call
    their callback; [ensureAuthentication] throws in the same way when no
    session identifier is stored, and only then. *)
Theorem operations_without_CAPI
    (this : Agent) (callback : Callback) (w : World) :
  _CAPI this = None ->
  isLoggedIn this callback w = Thrown TypeError w
  /\ logOut this callback w = Thrown TypeError w
  /\ logIn this callback w = Thrown TypeError w
  /\ (item (storage w) KEY_SESSION_ID = JNull ->
      ensureAuthentication this callback w = Thrown TypeError w)
  /\ (item (storage w) KEY_SESSION_ID <> JNull ->
      ensureAuthentication this callback w
      = callback (JBool false) (JBool true) w).
Proof.
  intros Hnone. repeat split.
  - run_agent. now rewrite Hnone.
  - run_agent. now rewrite Hnone.
  - unfold logIn, getItem, mbind, M_bind.
    destruct (is_null (item (storage w) KEY_SESSION_ID)) eqn:Hnull;
      cbn [negb]; run_agent; now rewrite ?Hnull, Hnone.
  - intros Hid. run_agent. now rewrite Hid, Hnone.
  - apply ensureAuthentication_stored_run.
Qed.

Lemma operations_without_CAPI_witness :
  logIn fresh_agent report abc_world = Thrown TypeError abc_world
  /\ logOut fresh_agent report empty_world = Thrown TypeError empty_world.
Proof.
  split.
  - exact (proj1 (proj2 (proj2
      (operations_without_CAPI fresh_agent report abc_world eq_refl)))).
  - exact (proj1 (proj2
      (operations_without_CAPI fresh_agent report empty_world eq_refl))).
Defined.

(** ** Writing and removing the session *)

Lemma clear_store_session (name href identifier csrfToken : jsval)
    (content : gmap string jsval) :
  clear_session (store_session name href identifier csrfToken content)
  = clear_session content.
Proof.
  unfold clear_session, store_session. apply map_eq. intros key.
  repeat (rewrite ?lookup_delete, ?lookup_insert; case_decide; try done).
Qed.

Lemma clear_session_absent (content : gmap string jsval) :
  (forall key, In key session_keys -> content !! key = None) ->
  clear_session content = content.
Proof.
  intros Habsent. unfold clear_session.
  rewrite !delete_id; try reflexivity;
    repeat (rewrite lookup_delete_ne by done);
    apply Habsent; cbn; auto.
Qed.

(** X8: [_resetStorage] undoes [_storeSessionInfo]: writing a session and then
    resetting is resetting alone, and resetting a storage that has none of
    the four keys changes nothing; so on such a storage the two in a row
    give the storage back as it was. *)
Theorem storeSessionInfo_then_resetStorage (session : jsval) (w : World) :
  nullish session = false ->
  (_storeSessionInfo session ;; _resetStorage) w = _resetStorage w
  /\ ((forall key, In key session_keys -> storage w !! key = None) ->
      (_storeSessionInfo session ;; _resetStorage) w
      = Returned tt {| storage := storage w; trace := trace w |}).
Proof.
  intros Hsession.
  assert (Hreset : forall w', _resetStorage w'
            = Returned tt {| storage := clear_session (storage w');
                             trace := trace w' |}) by reflexivity.
  assert (Hboth : (_storeSessionInfo session ;; _resetStorage) w
                  = _resetStorage w).
  { unfold mbind at 1. unfold M_bind.
    rewrite (storeSessionInfo_run session w Hsession), !Hreset.
    cbn [storage trace]. now rewrite clear_store_session. }
  split; [exact Hboth |]. intros Habsent.
  now rewrite Hboth, Hreset, clear_session_absent.
Qed.

Lemma storeSessionInfo_then_resetStorage_witness :
  (_storeSessionInfo session_authInfo ;; _resetStorage)
    {| storage := {[ "theme" := JStr "dark" ]}; trace := [] |}
  = Returned tt {| storage := {[ "theme" := JStr "dark" ]}; trace := [] |}.
Proof.
  rewrite (proj2 (storeSessionInfo_then_resetStorage session_authInfo
                    {| storage := {[ "theme" := JStr "dark" ]}; trace := [] |}
                    eq_refl)).
  - reflexivity.
  - intros key [<- | [<- | [<- | [<- | []]]]]; vm_compute; reflexivity.
Defined.

(** ** logIn *)

(** X9: [logIn] over a stored session that the service agrees to delete
    starts afresh: the session is deleted, the four keys are removed, and
    [ensureAuthentication] runs on the emptied storage, so that one create
    request follows the delete request. *)
Theorem logIn_reauthenticates
    (this : Agent) (userService : UserService) (w : World)
    (error response : jsval) :
  _CAPI this = Some userService ->
  item (storage w) KEY_SESSION_ID <> JNull ->
  item (storage w) KEY_SESSION_HREF <> JNull ->
  deleteSession userService (item (storage w) KEY_SESSION_HREF)
    = [(error, response)] ->
  truthy error = false ->
  (forall callback : Callback,
     logIn this callback w
     = ensureAuthentication this callback
         {| storage := clear_session (storage w);
            trace := trace w ++ [EvGetUserService;
              EvDeleteSession (item (storage w) KEY_SESSION_HREF)] |})
  /\ service_calls (trace (final_world (logIn this report w)))
     = service_calls (trace w)
       ++ [EvDeleteSession (item (storage w) KEY_SESSION_HREF);
           EvNewSessionCreateStruct (_login this) (_password this);
           EvCreateSession
             (newSessionCreateStruct userService (_login this)
                (_password this))].
Proof.
  intros HCAPI Hid Hhref Hanswer Herror.
  assert (Hrun : forall callback : Callback,
     logIn this callback w
     = ensureAuthentication this callback
         {| storage := clear_session (storage w);
            trace := trace w ++ [EvGetUserService;
              EvDeleteSession (item (storage w) KEY_SESSION_HREF)] |}).
  { intros callback. unfold logIn, getItem, mbind at 1, M_bind.
    rewrite (is_null_false _ Hid). cbn [negb].
    rewrite (logOut_stored_run this userService HCAPI w error response
               Hhref Hanswer).
    now rewrite Herror. }
  split; [exact Hrun |]. rewrite Hrun.
  rewrite (ensureAuthentication_run this userService _ report HCAPI)
    by (cbn [storage]; apply item_clear_session; cbn; auto).
  rewrite (deliver_quiet _ sessionCreated_quiet). cbn [trace].
  rewrite !service_calls_app. cbn. now rewrite <- app_assoc.
Qed.

Lemma logIn_reauthenticates_witness :
  logIn (admin_agent mock_service) report abc_world
  = Returned tt
      {| storage := abc_storage;
         trace := [EvGetUserService; EvDeleteSession (JStr "/sessions/abc");
                   EvGetUserService;
                   EvNewSessionCreateStruct (JStr "admin") (JStr "publish");
                   EvCreateSession
                     (newSessionCreateStruct mock_service (JStr "admin")
                        (JStr "publish"));
                   EvDone (JBool false) response_abc] |}.
Proof.
  rewrite (proj1 (logIn_reauthenticates (admin_agent mock_service)
                    mock_service abc_world (JBool false) (JBool true)
                    eq_refl ltac:(vm_compute; discriminate)
                    ltac:(vm_compute; discriminate) eq_refl eq_refl)).
  vm_compute. reflexivity.
Defined.

(** X10: [logIn] over a stored session identifier that survives the log out
    does not log in: when no href is stored, or when the service refuses
    the deletion, the identifier stays, no create request is made, and the
    callback is told [(false, true)]. *)
Theorem logIn_keeps_stale_session
    (this : Agent) (userService : UserService) (w : World) :
  _CAPI this = Some userService ->
  item (storage w) KEY_SESSION_ID <> JNull ->
  (item (storage w) KEY_SESSION_HREF = JNull ->
   forall callback : Callback,
     logIn this callback w
     = callback (JBool false) (JBool true)
         {| storage := storage w; trace := trace w ++ [EvGetUserService] |})
  /\ (forall error response,
        item (storage w) KEY_SESSION_HREF <> JNull ->
        deleteSession userService (item (storage w) KEY_SESSION_HREF)
          = [(error, response)] ->
        truthy error = true ->
        forall callback : Callback,
          logIn this callback w
          = callback (JBool false) (JBool true)
              {| storage := storage w;
                 trace := trace w ++ [EvGetUserService;
                   EvDeleteSession (item (storage w) KEY_SESSION_HREF)] |}).
Proof.
  intros HCAPI Hid. split.
  - intros Hhref callback. unfold logIn, getItem, mbind at 1, M_bind.
    rewrite (is_null_false _ Hid). cbn [negb].
    rewrite (logOut_none_run this userService w _ HCAPI Hhref).
    now rewrite ensureAuthentication_stored_run.
  - intros error response Hhref Hanswer Herror callback.
    unfold logIn, getItem, mbind at 1, M_bind.
    rewrite (is_null_false _ Hid). cbn [negb].
    rewrite (logOut_stored_run this userService HCAPI w error response
               Hhref Hanswer).
    rewrite Herror. now rewrite ensureAuthentication_stored_run.
Qed.

Lemma logIn_keeps_stale_session_witness :
  logIn (admin_agent mock_service) report
    {| storage := {[ KEY_SESSION_ID := JStr "abc" ]}; trace := [] |}
  = Returned tt
      {| storage := {[ KEY_SESSION_ID := JStr "abc" ]};
         trace := [EvGetUserService; EvDone (JBool false) (JBool true)] |}.
Proof.
  destruct (logIn_keeps_stale_session (admin_agent mock_service)
              mock_service
              {| storage := {[ KEY_SESSION_ID := JStr "abc" ]};
                 trace := [] |} eq_refl) as [Hrun _].
  { vm_compute. discriminate. }
  rewrite Hrun; [reflexivity | vm_compute; reflexivity].
Defined.

(** ** authenticateRequest and the headers *)

(** X11: Whatever the method and whatever the storage holds,
    [authenticateRequest] calls its callback with [false] and a request
    that has the method it had and, under every name other than
    [X-CSRF-Token], the headers it had; nothing is stored and nothing is
    asked of the user service.  Authenticating the request it produced
    produces it again. *)
Theorem authenticateRequest_headers
    (this : Agent) (request : Request) (w : World) :
  exists request' : Request,
    (forall done : jsval -> Request -> M unit,
       authenticateRequest this request done w
       = done (JBool false) request' w)
    /\ method request' = method request
    /\ (forall name, name <> "X-CSRF-Token" ->
          headers request' !! name = headers request !! name)
    /\ (forall done : jsval -> Request -> M unit,
          authenticateRequest this request' done w
          = done (JBool false) request' w).
Proof.
  unfold authenticateRequest, getItem, mbind, M_bind.
  destruct (negb (is_one (js_lookup SAFE_METHODS
                            (toUpperCase (method request))))
            && negb (is_null (item (storage w) KEY_CSRF_TOKEN))) eqn:Hwrite.
  - exists (set_header request "X-CSRF-Token"
              (item (storage w) KEY_CSRF_TOKEN)).
    cbn [set_header method headers]. rewrite Hwrite.
    repeat split.
    + intros name Hname. now rewrite lookup_insert_ne.
    + intros done. unfold set_header. cbn [method headers].
      now rewrite insert_insert_eq.
  - exists request. rewrite Hwrite. repeat split.
Qed.

(** ** Credentials *)

(** X12: [setCredentials] reads [login] and [password] off its argument without
    checking them and touches neither the storage nor the CAPI; a later
    first authentication builds its create structure from the two values
    read.  Given [undefined] or [null] it throws a [TypeError]. *)
Theorem setCredentials_then_authenticate
    (this : Agent) (userService : UserService) (credentials : jsval)
    (w : World) :
  _CAPI this = Some userService ->
  item (storage w) KEY_SESSION_ID = JNull ->
  (nullish credentials = true ->
   setCredentials this credentials w = Thrown TypeError w)
  /\ (nullish credentials = false ->
      let login := prop_of credentials "login" in
      let password := prop_of credentials "password" in
      let this' := {| _CAPI := Some userService; _login := login;
                      _password := password |} in
      setCredentials this credentials w = Returned this' w
      /\ service_calls
           (trace (final_world (ensureAuthentication this' report w)))
         = service_calls (trace w)
           ++ [EvNewSessionCreateStruct login password;
               EvCreateSession
                 (newSessionCreateStruct userService login password)]).
Proof.
  intros HCAPI Hid. split.
  - intros Hnullish. unfold setCredentials, get_prop, mbind, M_bind.
    now rewrite Hnullish.
  - intros Hnullish login password this'. split.
    + unfold setCredentials, get_prop, mbind, M_bind, mret, M_ret.
      now rewrite Hnullish, HCAPI.
    + rewrite (ensureAuthentication_run this' userService w report eq_refl Hid).
      rewrite (deliver_quiet _ sessionCreated_quiet). cbn [trace].
      now rewrite service_calls_app.
Qed.

Lemma setCredentials_then_authenticate_witness :
  setCredentials (admin_agent mock_service)
    (JObj {[ "login" := JStr "editor" ]}) empty_world
  = Returned {| _CAPI := Some mock_service; _login := JStr "editor";
                _password := JUndefined |} empty_world
  /\ setCredentials (admin_agent mock_service) JUndefined empty_world
     = Thrown TypeError empty_world.
Proof.
  split.
  - rewrite (proj1 (proj2 (setCredentials_then_authenticate
               (admin_agent mock_service) mock_service
               (JObj {[ "login" := JStr "editor" ]}) empty_world
               eq_refl eq_refl) eq_refl)).
    vm_compute. reflexivity.
  - exact (proj1 (setCredentials_then_authenticate (admin_agent mock_service)
                    mock_service JUndefined empty_world eq_refl eq_refl)
             eq_refl).
Defined.

(** X13: The documented use with credentials: an [authInfo] with a truthy login
    and password is kept as the credentials of the agent, whatever else it
    carries, and the storage is untouched; once the CAPI is set, a first
    authentication builds its create structure from that login and
    password. *)
Theorem new_credentials_then_authenticate
    (authInfo : jsval) (userService : UserService) (w : World) :
  has_credentials authInfo = true ->
  item (storage w) KEY_SESSION_ID = JNull ->
  let login := prop_of authInfo "login" in
  let password := prop_of authInfo "password" in
  let this := {| _CAPI := None; _login := login; _password := password |} in
  new authInfo w = Returned this w
  /\ service_calls
       (trace (final_world
          (ensureAuthentication (setCAPI this userService) report w)))
     = service_calls (trace w)
       ++ [EvNewSessionCreateStruct login password;
           EvCreateSession
             (newSessionCreateStruct userService login password)].
Proof.
  intros Hcredentials Hid login password this.
  assert (Hlogin : truthy (prop_of authInfo "login") = true).
  { unfold has_credentials in Hcredentials.
    now apply andb_true_iff in Hcredentials as [Hlogin _]. }
  split.
  - rewrite new_run.
    + now rewrite Hcredentials.
    + exact (truthy_prop_not_nullish _ _ Hlogin).
    + destruct authInfo; try discriminate Hlogin; reflexivity.
  - rewrite (ensureAuthentication_run (setCAPI this userService) userService
               w report eq_refl Hid).
    rewrite (deliver_quiet _ sessionCreated_quiet). cbn [trace].
    now rewrite service_calls_app.
Qed.

Lemma new_credentials_then_authenticate_witness :
  new mixed_authInfo empty_world
  = Returned {| _CAPI := None; _login := JStr "admin";
                _password := JStr "publish" |} empty_world.
Proof.
  rewrite (proj1 (new_credentials_then_authenticate mixed_authInfo
                    mock_service empty_world eq_refl eq_refl)).
  vm_compute. reflexivity.
Defined.

(** ** Operations in a row *)

(** X14: After a refresh that failed the agent authenticates from scratch:
    [isLoggedIn] followed by [ensureAuthentication] asks the service for the
    refresh and then for one new session. *)
Theorem isLoggedIn_failure_then_ensureAuthentication
    (this : Agent) (userService : UserService) (w : World)
    (error result : jsval) :
  _CAPI this = Some userService ->
  item (storage w) KEY_SESSION_ID <> JNull ->
  refreshSession userService (item (storage w) KEY_SESSION_ID)
    = [(error, result)] ->
  truthy error = true ->
  service_calls
    (trace (final_world
       ((isLoggedIn this report ;; ensureAuthentication this report) w)))
  = service_calls (trace w)
    ++ [EvRefreshSession (item (storage w) KEY_SESSION_ID);
        EvNewSessionCreateStruct (_login this) (_password this);
        EvCreateSession
          (newSessionCreateStruct userService (_login this)
             (_password this))].
Proof.
  intros HCAPI Hid Hanswer Herror. unfold mbind at 1. unfold M_bind.
  rewrite (isLoggedIn_stored_run this userService HCAPI w error result
             Hid Hanswer).
  rewrite Herror. unfold report at 1. unfold log. cbn [storage trace].
  rewrite (ensureAuthentication_run this userService _ report HCAPI)
    by (cbn [storage]; apply item_clear_session; cbn; auto).
  rewrite (deliver_quiet _ sessionCreated_quiet). cbn [trace].
  rewrite !service_calls_app. cbn. now rewrite app_nil_r, <- app_assoc.
Qed.

Lemma isLoggedIn_failure_then_ensureAuthentication_witness :
  service_calls
    (trace (final_world
       ((isLoggedIn (admin_agent faulty_service) report ;;
         ensureAuthentication (admin_agent faulty_service) report)
          abc_world)))
  = [EvRefreshSession (JStr "abc");
     EvNewSessionCreateStruct (JStr "admin") (JStr "publish");
     EvCreateSession
       (newSessionCreateStruct mock_service (JStr "admin") (JStr "publish"))].
Proof.
  rewrite (isLoggedIn_failure_then_ensureAuthentication
             (admin_agent faulty_service) faulty_service abc_world
             (JBool true) (JBool false) eq_refl
             ltac:(vm_compute; discriminate) eq_refl eq_refl).
  vm_compute. reflexivity.
Defined.

(** X15: Authentication is done once: when the first [ensureAuthentication]
    succeeds and the session it stores has an identifier other than
    [null], a second one finds it and reports [(false, true)] without any
    further call to the service. *)
Theorem ensureAuthentication_twice
    (this : Agent) (userService : UserService) (w : World)
    (error sessionResponse session : jsval) :
  _CAPI this = Some userService ->
  item (storage w) KEY_SESSION_ID = JNull ->
  createSession userService
    (newSessionCreateStruct userService (_login this) (_password this))
    = [(error, sessionResponse)] ->
  truthy error = false ->
  session_of sessionResponse = Some session ->
  prop_of session "identifier" <> JNull ->
  (ensureAuthentication this report ;; ensureAuthentication this report) w
  = Returned tt
      {| storage := store_created session (storage w);
         trace := trace w ++ [EvGetUserService;
           EvNewSessionCreateStruct (_login this) (_password this);
           EvCreateSession
             (newSessionCreateStruct userService (_login this)
                (_password this));
           EvDone (JBool false) sessionResponse;
           EvDone (JBool false) (JBool true)] |}.
Proof.
  intros HCAPI Hid Hanswer Herror Hsession Hidentifier.
  unfold mbind at 1. unfold M_bind.
  rewrite (ensureAuthentication_run this userService w report HCAPI Hid).
  rewrite Hanswer, deliver_once, sessionCreated_run, Herror, Hsession.
  unfold report at 1. unfold log. cbn [storage trace].
  rewrite ensureAuthentication_stored_run.
  - unfold report, log. cbn [storage trace]. now rewrite <- !app_assoc.
  - cbn [storage].
    destruct (item_store_session (prop_of session "name")
      (prop_of session "_href") (prop_of session "identifier")
      (prop_of session "csrfToken") (storage w)) as (_ & _ & Hstored & _).
    unfold store_created. now rewrite Hstored.
Qed.

Lemma ensureAuthentication_twice_witness :
  (ensureAuthentication (admin_agent mock_service) report ;;
   ensureAuthentication (admin_agent mock_service) report) empty_world
  = Returned tt
      {| storage := abc_storage;
         trace := [EvGetUserService;
                   EvNewSessionCreateStruct (JStr "admin") (JStr "publish");
                   EvCreateSession
                     (newSessionCreateStruct mock_service (JStr "admin")
                        (JStr "publish"));
                   EvDone (JBool false) response_abc;
                   EvDone (JBool false) (JBool true)] |}.
Proof.
  rewrite (ensureAuthentication_twice (admin_agent mock_service) mock_service
             empty_world (JBool false) response_abc session_abc
             eq_refl eq_refl eq_refl eq_refl eq_refl
             ltac:(vm_compute; discriminate)).
  vm_compute. reflexivity.
Defined.

(** X16: Logging out is done once: after a [logOut] the service agreed to, a
    second [logOut] finds no href and reports [(false, true)] without a
    second delete request. *)
Theorem logOut_twice
    (this : Agent) (userService : UserService) (w : World)
    (error response : jsval) :
  _CAPI this = Some userService ->
  item (storage w) KEY_SESSION_HREF <> JNull ->
  deleteSession userService (item (storage w) KEY_SESSION_HREF)
    = [(error, response)] ->
  truthy error = false ->
  (logOut this report ;; logOut this report) w
  = Returned tt
      {| storage := clear_session (storage w);
         trace := trace w ++ [EvGetUserService;
           EvDeleteSession (item (storage w) KEY_SESSION_HREF);
           EvDone error response;
           EvGetUserService;
           EvDone (JBool false) (JBool true)] |}.
Proof.
  intros HCAPI Hhref Hanswer Herror. unfold mbind at 1. unfold M_bind.
  rewrite (logOut_stored_run this userService HCAPI w error response
             Hhref Hanswer).
  rewrite Herror. unfold report at 1. unfold log. cbn [storage trace].
  rewrite (logOut_none_run this userService _ report HCAPI)
    by (cbn [storage]; apply item_clear_session; cbn; auto).
  unfold report, log. cbn [storage trace]. now rewrite <- !app_assoc.
Qed.

Lemma logOut_twice_witness :
  (logOut (admin_agent mock_service) report ;;
   logOut (admin_agent mock_service) report) abc_world
  = Returned tt
      {| storage := ∅;
         trace := [EvGetUserService; EvDeleteSession (JStr "/sessions/abc");
                   EvDone (JBool false) (JBool true);
                   EvGetUserService;
                   EvDone (JBool false) (JBool true)] |}.
Proof.
  rewrite (logOut_twice (admin_agent mock_service) mock_service abc_world
             (JBool false) (JBool true) eq_refl
             ltac:(vm_compute; discriminate) eq_refl eq_refl).
  vm_compute. reflexivity.
Defined.

(** ** One call of the callback for each answer of the service *)

Lemma deliver_counts (callback : Callback) (answers : list (jsval * jsval)) :
  (forall error result w, In (error, result) answers ->
     exists w', callback error result w = Returned tt w'
                /\ done_count (trace w') = S (done_count (trace w))) ->
  forall w, exists w',
    deliver callback answers w = Returned tt w'
    /\ done_count (trace w') = done_count (trace w) + length answers.
Proof.
  induction answers as [| [error result] rest IH]; intros Hcallback w.
  - exists w. split; [reflexivity | cbn; lia].
  - destruct (Hcallback error result w) as (w1 & Hrun & Hcount); [now left |].
    destruct (IH (fun e r w0 Hin => Hcallback e r w0 (or_intror Hin)) w1)
      as (w' & Hrest & Hcount').
    exists w'. cbn [deliver]. unfold mbind, M_bind. rewrite Hrun.
    split; [exact Hrest |]. cbn [length]. lia.
Qed.

Lemma isLoggedIn_answers (this : Agent) (userService : UserService)
    (w : World) (callback : Callback) :
  _CAPI this = Some userService ->
  item (storage w) KEY_SESSION_ID <> JNull ->
  isLoggedIn this callback w
  = deliver (fun error result =>
               (if truthy error then _resetStorage else mret tt) ;;
               callback error result)
      (refreshSession userService (item (storage w) KEY_SESSION_ID))
      {| storage := storage w;
         trace := trace w ++ [EvGetUserService;
           EvRefreshSession (item (storage w) KEY_SESSION_ID)] |}.
Proof.
  intros HCAPI Hid. run_agent. rewrite HCAPI. cbn [storage trace].
  rewrite (is_null_false _ Hid). cbv beta iota. cbn [storage trace].
  now rewrite <- app_assoc.
Qed.

Lemma logOut_answers (this : Agent) (userService : UserService)
    (w : World) (done : Callback) :
  _CAPI this = Some userService ->
  item (storage w) KEY_SESSION_HREF <> JNull ->
  logOut this done w
  = deliver (fun error response =>
               (if negb (truthy error) then _resetStorage else mret tt) ;;
               done error response)
      (deleteSession userService (item (storage w) KEY_SESSION_HREF))
      {| storage := storage w;
         trace := trace w ++ [EvGetUserService;
           EvDeleteSession (item (storage w) KEY_SESSION_HREF)] |}.
Proof.
  intros HCAPI Hhref. run_agent. rewrite HCAPI. cbn [storage trace].
  rewrite (is_null_false _ Hhref). cbv beta iota. cbn [storage trace].
  now rewrite <- app_assoc.
Qed.

(** X17: The agent calls the caller's callback once for each answer the
    service gives, no more and no less, and returns: never when the service
    stays silent, twice when it answers twice.  For [ensureAuthentication]
    this holds when every answer without error carries
    [document.Session]. *)
Theorem callback_per_answer
    (this : Agent) (userService : UserService) (w : World) :
  _CAPI this = Some userService ->
  (item (storage w) KEY_SESSION_ID <> JNull ->
   exists w',
     isLoggedIn this report w = Returned tt w'
     /\ done_count (trace w')
        = done_count (trace w)
          + length (refreshSession userService
                      (item (storage w) KEY_SESSION_ID)))
  /\ (item (storage w) KEY_SESSION_HREF <> JNull ->
      exists w',
        logOut this report w = Returned tt w'
        /\ done_count (trace w')
           = done_count (trace w)
             + length (deleteSession userService
                         (item (storage w) KEY_SESSION_HREF)))
  /\ (item (storage w) KEY_SESSION_ID = JNull ->
      (forall error sessionResponse,
         In (error, sessionResponse)
            (createSession userService
               (newSessionCreateStruct userService (_login this)
                  (_password this))) ->
         truthy error = false -> is_Some (session_of sessionResponse)) ->
      exists w',
        ensureAuthentication this report w = Returned tt w'
        /\ done_count (trace w')
           = done_count (trace w)
             + length (createSession userService
                         (newSessionCreateStruct userService (_login this)
                            (_password this)))).
Proof.
  intros HCAPI. repeat split.
  - intros Hid. rewrite (isLoggedIn_answers this userService w report HCAPI Hid).
    edestruct deliver_counts as (w' & Hrun & Hcount);
      [| exists w'; split; [exact Hrun |]].
    + intros error result w0 _. unfold mbind, M_bind, report, log.
      destruct (truthy error); eexists; (split; [reflexivity |]);
        cbn [trace]; rewrite done_count_app; cbn; lia.
    + rewrite Hcount. cbn [trace]. rewrite done_count_app. cbn. lia.
  - intros Hhref.
    rewrite (logOut_answers this userService w report HCAPI Hhref).
    edestruct deliver_counts as (w' & Hrun & Hcount);
      [| exists w'; split; [exact Hrun |]].
    + intros error response w0 _. unfold mbind, M_bind, report, log.
      destruct (negb (truthy error)); eexists; (split; [reflexivity |]);
        cbn [trace]; rewrite done_count_app; cbn; lia.
    + rewrite Hcount. cbn [trace]. rewrite done_count_app. cbn. lia.
  - intros Hid Hcarries.
    rewrite (ensureAuthentication_run this userService w report HCAPI Hid).
    edestruct deliver_counts as (w' & Hrun & Hcount);
      [| exists w'; split; [exact Hrun |]].
    + intros error sessionResponse w0 Hin. rewrite sessionCreated_run.
      unfold report, log. destruct (truthy error) eqn:Herror.
      * eexists. split; [reflexivity |].
        cbn [trace]. rewrite done_count_app. cbn. lia.
      * destruct (Hcarries error sessionResponse Hin Herror)
          as [session ->].
        eexists. split; [reflexivity |].
        cbn [trace]. rewrite done_count_app. cbn. lia.
    + rewrite Hcount. cbn [trace]. rewrite done_count_app. cbn. lia.
Qed.

Lemma callback_per_answer_witness :
  (exists w',
     logOut (admin_agent stuttering_service) report abc_world
       = Returned tt w'
     /\ done_count (trace w') = 2)
  /\ (exists w',
        isLoggedIn (admin_agent silent_service) report abc_world
          = Returned tt w'
        /\ done_count (trace w') = 0).
Proof.
  split.
  - exact (proj1 (proj2 (callback_per_answer (admin_agent stuttering_service)
                           stuttering_service abc_world eq_refl))
             ltac:(vm_compute; discriminate)).
  - exact (proj1 (callback_per_answer (admin_agent silent_service)
                    silent_service abc_world eq_refl)
             ltac:(vm_compute; discriminate)).
Defined.

(** ** The token on requests, from log in to log out *)

Lemma authenticateRequest_run (this : Agent) (request : Request)
    (done : jsval -> Request -> M unit) (w : World) :
  authenticateRequest this request done w
  = if is_one (js_lookup SAFE_METHODS (toUpperCase (method request)))
    then done (JBool false) request w
    else if is_null (item (storage w) KEY_CSRF_TOKEN)
         then done (JBool false) request w
         else done (JBool false)
                (set_header request "X-CSRF-Token"
                   (item (storage w) KEY_CSRF_TOKEN)) w.
Proof.
  run_agent.
  destruct (is_one (js_lookup SAFE_METHODS (toUpperCase (method request))));
    [reflexivity |].
  now destruct (is_null (item (storage w) KEY_CSRF_TOKEN)).
Qed.

(** X18: Once [ensureAuthentication] has stored a session whose token is not
    [null], a request whose method is written in ASCII and is not safe
    leaves [authenticateRequest] with that token under [X-CSRF-Token]. *)
Theorem token_after_authentication
    (this : Agent) (userService : UserService) (w : World)
    (error sessionResponse session : jsval) (request : Request) :
  _CAPI this = Some userService ->
  item (storage w) KEY_SESSION_ID = JNull ->
  createSession userService
    (newSessionCreateStruct userService (_login this) (_password this))
    = [(error, sessionResponse)] ->
  truthy error = false ->
  session_of sessionResponse = Some session ->
  prop_of session "csrfToken" <> JNull ->
  all_ascii (method request) = true ->
  safe_method (method request) = false ->
  (ensureAuthentication this report ;;
   authenticateRequest this request report_request) w
  = Returned tt
      {| storage := store_created session (storage w);
         trace := trace w ++ [EvGetUserService;
           EvNewSessionCreateStruct (_login this) (_password this);
           EvCreateSession
             (newSessionCreateStruct userService (_login this)
                (_password this));
           EvDone (JBool false) sessionResponse;
           EvRequestDone (JBool false)
             (set_header request "X-CSRF-Token"
                (prop_of session "csrfToken"))] |}.
Proof.
  intros HCAPI Hid Hanswer Herror Hsession Htoken Hascii Hunsafe.
  unfold mbind at 1. unfold M_bind.
  rewrite (ensureAuthentication_run this userService w report HCAPI Hid).
  rewrite Hanswer, deliver_once, sessionCreated_run, Herror, Hsession.
  unfold report, log. cbn [storage trace].
  rewrite authenticateRequest_run, (SAFE_METHODS_spec _ Hascii), Hunsafe.
  cbn [storage].
  destruct (item_store_session (prop_of session "name")
    (prop_of session "_href") (prop_of session "identifier")
    (prop_of session "csrfToken") (storage w)) as (_ & _ & _ & Hstored).
  unfold store_created. rewrite Hstored, (is_null_false _ Htoken).
  unfold report_request, log. cbn [storage trace]. now rewrite <- !app_assoc.
Qed.

Lemma token_after_authentication_witness :
  (ensureAuthentication (admin_agent mock_service) report ;;
   authenticateRequest (admin_agent mock_service) post_request
     report_request) empty_world
  = Returned tt
      {| storage := abc_storage;
         trace := [EvGetUserService;
                   EvNewSessionCreateStruct (JStr "admin") (JStr "publish");
                   EvCreateSession
                     (newSessionCreateStruct mock_service (JStr "admin")
                        (JStr "publish"));
                   EvDone (JBool false) response_abc;
                   EvRequestDone (JBool false)
                     {| method := "POST";
                        headers := {[ "X-CSRF-Token" := JStr "tok1" ]} |}] |}.
Proof.
  rewrite (token_after_authentication (admin_agent mock_service) mock_service
             empty_world (JBool false) response_abc session_abc post_request
             eq_refl eq_refl eq_refl eq_refl eq_refl
             ltac:(vm_compute; discriminate) eq_refl eq_refl).
  vm_compute. reflexivity.
Defined.

(** X19: After a [logOut] the service agreed to, or a refresh that failed, no
    token is left to attach: [authenticateRequest] passes every request on
    as it is, whatever its method. *)
Theorem no_token_after_session_loss
    (this : Agent) (userService : UserService) (w : World)
    (error result : jsval) (request : Request) :
  _CAPI this = Some userService ->
  (item (storage w) KEY_SESSION_HREF <> JNull ->
   deleteSession userService (item (storage w) KEY_SESSION_HREF)
     = [(error, result)] ->
   truthy error = false ->
   (logOut this report ;; authenticateRequest this request report_request) w
   = Returned tt
       {| storage := clear_session (storage w);
          trace := trace w ++ [EvGetUserService;
            EvDeleteSession (item (storage w) KEY_SESSION_HREF);
            EvDone error result;
            EvRequestDone (JBool false) request] |})
  /\ (item (storage w) KEY_SESSION_ID <> JNull ->
      refreshSession userService (item (storage w) KEY_SESSION_ID)
        = [(error, result)] ->
      truthy error = true ->
      (isLoggedIn this report ;;
       authenticateRequest this request report_request) w
      = Returned tt
          {| storage := clear_session (storage w);
             trace := trace w ++ [EvGetUserService;
               EvRefreshSession (item (storage w) KEY_SESSION_ID);
               EvDone error result;
               EvRequestDone (JBool false) request] |}).
Proof.
  intros HCAPI.
  assert (Hnone : forall t,
    authenticateRequest this request report_request
      {| storage := clear_session (storage w); trace := t |}
    = Returned tt {| storage := clear_session (storage w);
                     trace := t ++ [EvRequestDone (JBool false) request] |}).
  { intros t. rewrite authenticateRequest_run. cbn [storage].
    rewrite (item_clear_session (storage w) KEY_CSRF_TOKEN)
      by (cbn; auto).
    cbn [is_null].
    now destruct (is_one (js_lookup SAFE_METHODS
                            (toUpperCase (method request)))). }
  split.
  - intros Hhref Hanswer Herror. unfold mbind at 1. unfold M_bind.
    rewrite (logOut_stored_run this userService HCAPI w error result
               Hhref Hanswer).
    rewrite Herror. unfold report, log. cbn [storage trace].
    now rewrite Hnone, <- !app_assoc.
  - intros Hid Hanswer Herror. unfold mbind at 1. unfold M_bind.
    rewrite (isLoggedIn_stored_run this userService HCAPI w error result
               Hid Hanswer).
    rewrite Herror. unfold report, log. cbn [storage trace].
    now rewrite Hnone, <- !app_assoc.
Qed.

Lemma no_token_after_session_loss_witness :
  (logOut (admin_agent mock_service) report ;;
   authenticateRequest (admin_agent mock_service) post_request
     report_request) abc_world
  = Returned tt
      {| storage := ∅;
         trace := [EvGetUserService; EvDeleteSession (JStr "/sessions/abc");
                   EvDone (JBool false) (JBool true);
                   EvRequestDone (JBool false) post_request] |}.
Proof.
  rewrite (proj1 (no_token_after_session_loss (admin_agent mock_service)
                    mock_service abc_world (JBool false) (JBool true)
                    post_request eq_refl)
             ltac:(vm_compute; discriminate) eq_refl eq_refl).
  vm_compute. reflexivity.
Defined.
